(** * trading_framework: the trading control loop of src/main.py

    A shallow embedding of the strategies ([VolatilityBreakoutStrategy],
    [RSIStrategy]) and of [TradingBot] ([initialize], [sell_position],
    [buy_position], [run], [close], [main]).

    Conventions of the model.
    - Python numbers (int and float alike) are exact rationals [Q]; a
      Python value that the code handles is a [pyval].
    - Dictionaries ([self.position], [self.params], the ticker and order
      dictionaries returned by ccxt) are finite maps with string keys.
    - Everything outside the process (the exchange behind ccxt, the wall
      clock, [asyncio.sleep]) is an abstract [World]; every call the bot
      makes to it is appended to a trace, newest event first.
    - [logging.*] output is not modelled.  On every path that reaches a
      [logging] call with a format specification the formatted value is a
      number, so these calls never raise. *)

From Stdlib Require Import QArith Qround Lqa.
From stdpp Require Import gmap strings list fin_maps.

Local Open Scope string_scope.

(** ** Python values *)

(** What [datetime.now()] returns. *)
Record datetime := mk_datetime {
  year : nat; month : nat; day : nat;
  hour : nat; minute : nat; second : nat
}.

(** The values the bot handles: [None], a number, or the text of a
    timestamp.  [PStamp t] is [t.strftime('%Y-%m-%d %H:%M:%S')], a
    non-empty [str]. *)
Inductive pyval :=
| PNone
| PNum (q : Q)
| PStamp (t : datetime).

Inductive exn :=
| TypeError
| ValueError
| KeyError (key : string)
| ZeroDivisionError
| ExchangeError (msg : string).

Inductive result (A : Type) :=
| Ok (a : A)
| Raise (e : exn).
Arguments Ok {A} a.
Arguments Raise {A} e.

(** Sequencing of expressions that may raise. *)
#[export] Instance result_ret : MRet result := fun _ a => Ok a.
#[export] Instance result_bind : MBind result := fun _ _ k r =>
  match r with
  | Ok a => k a
  | Raise ex => Raise ex
  end.

Definition Qlt_bool (x y : Q) : bool := negb (Qle_bool y x).

(** Truth value of a Python object: [None] and zero are false. *)
Definition truthy (v : pyval) : bool :=
  match v with
  | PNone => false
  | PNum q => negb (Qeq_bool q 0)
  | PStamp _ => true
  end.

(** [a or b] *)
Definition py_or (a b : pyval) : pyval := if truthy a then a else b.

(** Binary arithmetic.  Operands that are not numbers raise [TypeError].
    (Python repeats a string multiplied by an int; the only product of
    the program, line 296, is at once divided by the budget, which raises
    the same [TypeError] with no effect in between.) *)
Definition py_sub (a b : pyval) : result pyval :=
  match a, b with
  | PNum x, PNum y => Ok (PNum (x - y))
  | _, _ => Raise TypeError
  end.

Definition py_mul (a b : pyval) : result pyval :=
  match a, b with
  | PNum x, PNum y => Ok (PNum (x * y))
  | _, _ => Raise TypeError
  end.

Definition py_div (a b : pyval) : result pyval :=
  match a, b with
  | PNum x, PNum y =>
      if Qeq_bool y 0 then Raise ZeroDivisionError else Ok (PNum (x / y))
  | _, _ => Raise TypeError
  end.

(** [a > b]: ordering a number against [None] or a string raises. *)
Definition py_gt (a b : pyval) : result bool :=
  match a, b with
  | PNum x, PNum y => Ok (Qlt_bool y x)
  | _, _ => Raise TypeError
  end.

(** [f"{v:,.2f}"] and [f"{v:.6f}"]: only a number accepts the [f]
    presentation type; [None] raises [TypeError], a string [ValueError].
    The text itself is not modelled, only whether formatting succeeds. *)
Definition py_format_f (v : pyval) : result unit :=
  match v with
  | PNum _ => Ok tt
  | PNone => Raise TypeError
  | PStamp _ => Raise ValueError
  end.

(** Nearest integer, ties to the even neighbour. *)
Definition round_half_even (q : Q) : Z :=
  let n := Qfloor q in
  let r := (q - inject_Z n)%Q in
  match (r ?= 1 # 2)%Q with
  | Lt => n
  | Gt => (n + 1)%Z
  | Eq => if Z.even n then n else (n + 1)%Z
  end.

(** [round(q, 2)] *)
Definition py_round2 (q : Q) : Q :=
  (inject_Z (round_half_even (q * 100)) / 100)%Q.

(** [round(v, 2)] *)
Definition py_round (v : pyval) : result Q :=
  match v with
  | PNum q => Ok (py_round2 q)
  | _ => Raise TypeError
  end.

(** ** Dictionaries *)

Abbreviation pydict := (gmap string pyval).

(** [not d] is true exactly for the empty dictionary. *)
Definition dict_is_empty (d : pydict) : bool := Nat.eqb (size d) 0.

(** [d.get(k)] and [d.get(k, dflt)] *)
Definition dict_get (d : pydict) (k : string) (dflt : pyval) : pyval :=
  default dflt (d !! k).

(** [d[k]] *)
Definition dict_index (d : pydict) (k : string) : result pyval :=
  match d !! k with
  | Some v => Ok v
  | None => Raise (KeyError k)
  end.

(** [params.get(k, dflt)] on a bag of numeric parameters. *)
Definition params_get (params : gmap string Q) (k : string) (dflt : Q) : Q :=
  default dflt (params !! k).

(** ** Module-level configuration (lines 64-68) *)

Definition EXCHANGE_NAME : string := "upbit".
Definition TARGET_SYMBOL : string := "BTC/KRW".
Definition TRADE_BUDGET_KRW : Q := 5000.
Definition MARKET_RESET_HOUR : nat := 9.
Definition SELECTED_STRATEGY : string := "VolatilityBreakout".

(** The two reasons [run] passes to [sell_position] (lines 370 and 387). *)
Definition REASON_SCHEDULED : string := "정기 매도".
Definition REASON_STRATEGY : string := "전략 매도 신호".

(** ** What the bot exchanges with the outside *)

(** One OHLCV row: [timestamp, open, high, low, close, volume]. *)
Record candle := mk_candle {
  c_timestamp : Q; c_open : Q; c_high : Q; c_low : Q; c_close : Q; c_volume : Q
}.

(** An entry of the series computed by pandas_ta. *)
Inductive fval :=
| NaN
| Fin (q : Q).

(** [trade_details] of [sell_position] (lines 299-308). *)
Record TradeRecord := mk_trade {
  entry_time : pyval;
  exit_time : pyval;
  tr_symbol : string;
  entry_price : pyval;
  exit_price : pyval;
  amount : pyval;
  profit_krw : Q;
  profit_percent : Q
}.

(** The texts handed to [NotificationManager.send_message], by call site. *)
Inductive message :=
| MsgStarted (strategy_name sym : string)
| MsgStartFailed (e : exn)
| MsgSold (reason sym : string) (profit pct : Q)
| MsgSellFailed (e : exn)
| MsgBought (sym : string) (price qty : pyval)
| MsgBuyFailed (e : exn)
| MsgLoopError (e : exn)
| MsgClosed.

Inductive call :=
| LoadMarkets
| FetchTicker (sym : string)
| FetchOHLCV (sym timeframe : string) (limit : nat)
| CreateMarketBuyOrder (sym : string) (qty : pyval)
| CreateMarketSellOrder (sym : string) (qty : pyval)
| Close.

(** An entry of the trace.  [Gateway c ok] is a call to the exchange and
    whether it returned ([true]) or raised ([false]). *)
Inductive event :=
| Gateway (c : call) (ok : bool)
| LogTrade (r : TradeRecord)
| Notify (m : message)
| Sleep (secs : nat).

Inductive signal := BUY | SELL | HOLD.

(** The exchange object of ccxt, the clock and the pandas_ta indicator.
    A gateway method returns its answer, or raises, and moves the world
    on.  [ta_rsi length rows] is [df.ta.rsi(length=length)] on the frame
    built from [rows]: [None] when pandas_ta declines to compute, else
    the series. *)
Class World (W : Type) := {
  now : W -> datetime;
  sleep : nat -> W -> W;
  load_markets : W -> result unit * W;
  fetch_ticker : string -> W -> result pydict * W;
  fetch_ohlcv : string -> string -> nat -> W -> result (list candle) * W;
  create_market_buy_order : string -> pyval -> W -> result pydict * W;
  create_market_sell_order : string -> pyval -> W -> result pydict * W;
  close_exchange : W -> result unit * W;
  ta_rsi : Q -> list candle -> option (list fval)
}.

Definition is_ok {A} (r : result A) : bool :=
  match r with Ok _ => true | Raise _ => false end.

(** The world together with the trace of what the bot did to it. *)
Record Env (W : Type) := mk_env {
  world : W;
  trace : list event
}.
Arguments mk_env {W} world trace.
Arguments world {W} e.
Arguments trace {W} e.

Section Gateway.
Context {W : Type} `{World W}.

Definition emit (ev : event) (e : Env W) : Env W :=
  mk_env (world e) (ev :: trace e).

(** Run a gateway method and record the call with its outcome. *)
Definition gateway {A} (c : call) (f : W -> result A * W) (e : Env W)
  : result A * Env W :=
  let '(r, w) := f (world e) in
  (r, mk_env w (Gateway c (is_ok r) :: trace e)).

Definition gw_load_markets : Env W -> result unit * Env W :=
  gateway LoadMarkets load_markets.

Definition gw_fetch_ticker (sym : string) : Env W -> result pydict * Env W :=
  gateway (FetchTicker sym) (fetch_ticker sym).

Definition gw_fetch_ohlcv (sym tf : string) (limit : nat)
  : Env W -> result (list candle) * Env W :=
  gateway (FetchOHLCV sym tf limit) (fetch_ohlcv sym tf limit).

Definition gw_create_market_buy_order (sym : string) (qty : pyval)
  : Env W -> result pydict * Env W :=
  gateway (CreateMarketBuyOrder sym qty) (create_market_buy_order sym qty).

Definition gw_create_market_sell_order (sym : string) (qty : pyval)
  : Env W -> result pydict * Env W :=
  gateway (CreateMarketSellOrder sym qty) (create_market_sell_order sym qty).

Definition gw_close : Env W -> result unit * Env W :=
  gateway Close close_exchange.

(** [asyncio.sleep(secs)] *)
Definition py_sleep (secs : nat) (e : Env W) : Env W :=
  mk_env (sleep secs (world e)) (Sleep secs :: trace e).

(** [NotificationManager.send_message] (lines 84-96): returns silently
    when Telegram is not configured and swallows a failed request, so
    the caller only ever sees the call return. *)
Definition send_message (m : message) (e : Env W) : Env W :=
  emit (Notify m) e.

(** [PerformanceLogger.log_trade] (lines 112-124): appends the row and
    swallows any error of the write. *)
Definition log_trade (r : TradeRecord) (e : Env W) : Env W :=
  emit (LogTrade r) e.

End Gateway.

(** ** Strategies *)

Module VolatilityBreakoutStrategy.

(** [self.params], [self.target_price] ([None] or a number) and
    [self.bought]. *)
Record t := mk {
  params : gmap string Q;
  target_price : option Q;
  bought : bool
}.

(** [__init__] with the default parameter bag [{'k_value': 0.5}]. *)
Definition default_params : gmap string Q := {[ "k_value" := 1 # 2 ]}.

Definition init (params : gmap string Q) : t := mk params None false.

Definition set_target (s : t) (tp : option Q) : t :=
  mk (params s) tp (bought s).

Section Methods.
Context {W : Type} `{World W}.

(** [prepare_data] (lines 147-165).  [ohlcv[-2]] and [ohlcv[-1]] are
    read from the end of whatever list the exchange returned; any
    exception leaves the target undefined. *)
Definition prepare_data (sym : string) (s : t) (e : Env W) : t * Env W :=
  let '(r, e1) := gw_fetch_ohlcv sym "1d" 2 e in
  match r with
  | Raise _ => (set_target s None, e1)
  | Ok ohlcv =>
      if (length ohlcv <? 2)%nat then (set_target s None, e1)
      else
        match ohlcv !! (length ohlcv - 2)%nat,
              ohlcv !! (length ohlcv - 1)%nat with
        | Some yesterday, Some today =>
            let today_open := c_open today in
            let volatility := (c_high yesterday - c_low yesterday)%Q in
            let k := params_get (params s) "k_value" (1 # 2) in
            (set_target s (Some (today_open + volatility * k)%Q), e1)
        | _, _ => (set_target s None, e1)
        end
  end.

(** [get_signal] (lines 167-182). *)
Definition get_signal (sym : string) (s : t) (e : Env W)
  : signal * t * Env W :=
  match bought s, target_price s with
  | true, _ => (HOLD, s, e)
  | false, None => (HOLD, s, e)
  | false, Some target =>
      let '(r, e1) := gw_fetch_ticker sym e in
      match r with
      | Raise _ => (HOLD, s, e1)
      | Ok ticker =>
          match dict_index ticker "last" with
          | Raise _ => (HOLD, s, e1)
          | Ok current_price =>
              match py_gt current_price (PNum target) with
              | Ok true => (BUY, mk (params s) (target_price s) true, e1)
              | Ok false => (HOLD, s, e1)
              | Raise _ => (HOLD, s, e1)
              end
          end
      end
  end.

End Methods.

(** [reset] (lines 184-188). *)
Definition reset (s : t) : t := mk (params s) None false.

End VolatilityBreakoutStrategy.

Module RSIStrategy.

(** [self.params]; [self.timeframe] is the constant ['1h']. *)
Record t := mk { params : gmap string Q }.

Definition default_params : gmap string Q :=
  {[ "rsi_period" := 14%Q; "oversold" := 30%Q; "overbought" := 70%Q ]}.

Definition timeframe : string := "1h".

(** [last_rsi < threshold] and [last_rsi > threshold] on a float: both
    are false when the value is NaN. *)
Definition flt (v : fval) (threshold : Q) : bool :=
  match v with NaN => false | Fin q => Qlt_bool q threshold end.

Definition fgt (v : fval) (threshold : Q) : bool :=
  match v with NaN => false | Fin q => Qlt_bool threshold q end.

(** Lines 208-219, once the series is there. *)
Definition classify (s : t) (last_rsi : fval) : signal :=
  let oversold_threshold := params_get (params s) "oversold" 30 in
  let overbought_threshold := params_get (params s) "overbought" 70 in
  if flt last_rsi oversold_threshold then BUY
  else if fgt last_rsi overbought_threshold then SELL
  else HOLD.

Section Methods.
Context {W : Type} `{World W}.

(** [get_signal] (lines 196-224).  [rsi.iloc[-1]] is the last entry
    of the series; [rsi is None or rsi.empty] returns HOLD, and so does,
    through the handler of line 221, an indicator that raises. *)
Definition get_signal (sym : string) (s : t) (e : Env W) : signal * Env W :=
  let '(r, e1) := gw_fetch_ohlcv sym timeframe 100 e in
  match r with
  | Raise _ => (HOLD, e1)
  | Ok ohlcv =>
      let rsi_period := params_get (params s) "rsi_period" 14 in
      match ta_rsi rsi_period ohlcv with
      | None => (HOLD, e1)
      | Some rsi =>
          match last rsi with
          | None => (HOLD, e1)
          | Some last_rsi => (classify s last_rsi, e1)
          end
      end
  end.

End Methods.

End RSIStrategy.

(** The strategy object held by the bot: one of the two classes. *)
Inductive Strategy :=
| VolatilityBreakout (s : VolatilityBreakoutStrategy.t)
| RSI (s : RSIStrategy.t).

(** ** The bot *)

(** [TradingBot]: [self.symbol], [self.budget], [self.position],
    [self.strategy]; [env] is the exchange object shared with the
    strategy, with the trace. *)
Record TradingBot (W : Type) := mk_bot {
  symbol : string;
  budget : Q;
  position : pydict;
  strategy : Strategy;
  env : Env W
}.
Arguments mk_bot {W} symbol budget position strategy env.
Arguments symbol {W} _.
Arguments budget {W} _.
Arguments position {W} _.
Arguments strategy {W} _.
Arguments env {W} _.

Definition set_position {W} (p : pydict) (b : TradingBot W) : TradingBot W :=
  mk_bot (symbol b) (budget b) p (strategy b) (env b).

Definition set_strategy {W} (s : Strategy) (b : TradingBot W) : TradingBot W :=
  mk_bot (symbol b) (budget b) (position b) s (env b).

Definition set_env {W} (e : Env W) (b : TradingBot W) : TradingBot W :=
  mk_bot (symbol b) (budget b) (position b) (strategy b) e.

(** A method body that may raise: it returns a value or an exception,
    and in both cases the bot as the statements run so far left it. *)
Definition M (W A : Type) : Type := TradingBot W -> result A * TradingBot W.

#[export] Instance M_ret {W} : MRet (M W) := fun _ a b => (Ok a, b).

#[export] Instance M_bind {W} : MBind (M W) := fun _ _ k m b =>
  match m b with
  | (Ok a, b1) => k a b1
  | (Raise ex, b1) => (Raise ex, b1)
  end.

(** The value of an expression that may raise. *)
Definition lift {W A} (r : result A) : M W A := fun b => (r, b).

(** A call that goes through the gateway. *)
Definition lift_env {W A} (f : Env W -> result A * Env W) : M W A :=
  fun b => let '(r, e) := f (env b) in (r, set_env e b).

(** A call that cannot raise. *)
Definition do_env {W} (f : Env W -> Env W) : M W unit :=
  fun b => (Ok tt, set_env (f (env b)) b).

Definition gets {W A} (f : TradingBot W -> A) : M W A := fun b => (Ok (f b), b).

Definition assign_position {W} (p : pydict) : M W unit :=
  fun b => (Ok tt, set_position p b).

(** [try: body except Exception as e: handler(e)] around a body whose
    handler does not raise. *)
Definition try_except {W} (body : M W unit)
  (handler : exn -> TradingBot W -> TradingBot W) (b : TradingBot W)
  : TradingBot W :=
  match body b with
  | (Ok _, b1) => b1
  | (Raise ex, b1) => handler ex b1
  end.

Section Methods.
Context {W : Type} `{World W}.

Definition notify (m : message) (b : TradingBot W) : TradingBot W :=
  set_env (send_message m (env b)) b.

(** [datetime.now().strftime('%Y-%m-%d %H:%M:%S')] *)
Definition timestamp_now : M W pyval :=
  gets (fun b => PStamp (now (world (env b)))).

(** Lines 291-294: the exit price is the fill's [average], else its
    [price], else a fresh quote. *)
Definition exit_price_of (sym : string) (order : pydict) (e : Env W)
  : result pyval * Env W :=
  let quoted := py_or (dict_get order "average" PNone)
                      (dict_get order "price" PNone) in
  if truthy quoted then (Ok quoted, e)
  else
    let '(r, e1) := gw_fetch_ticker sym e in
    match r with
    | Ok ticker => (dict_index ticker "last", e1)
    | Raise ex => (Raise ex, e1)
    end.

(** Lines 296-308: the profit and the row to record.  Every step is
    arithmetic or a dictionary read, so the whole is a value or an
    exception; [exited] is the timestamp read at line 301. *)
Definition trade_details (sym : string) (pos : pydict) (money : Q)
  (exit_price amount_to_sell exited : pyval) : result TradeRecord :=
  entry ← dict_index pos "entry_price";
  diff ← py_sub exit_price entry;
  profit ← py_mul diff amount_to_sell;
  ratio ← py_div profit (PNum money);
  pct ← py_mul ratio (PNum 100);
  entered ← dict_index pos "timestamp";
  profit2 ← py_round profit;
  pct2 ← py_round pct;
  Ok (mk_trade entered exited sym entry exit_price amount_to_sell
               profit2 pct2).

(** Lines 288-316: the statements of [sell_position] after the quantity
    check, up to and including [self.position = {}].  The two numbers
    formatted into the message are results of the arithmetic above, so
    building the text cannot raise; their [.2f] text shows the two
    decimals that [round(_, 2)] keeps, and the message carries those. *)
Definition sell_body (reason : string) (amount_to_sell : pyval) : M W unit :=
  sym ← gets symbol;
  order ← lift_env (gw_create_market_sell_order sym amount_to_sell);
  exit_price ← lift_env (exit_price_of sym order);
  pos ← gets position;
  money ← gets budget;
  exited ← timestamp_now;
  details ← lift (trade_details sym pos money exit_price amount_to_sell
                                exited);
  do_env (log_trade details) ;;
  do_env (send_message
            (MsgSold reason sym (profit_krw details)
                     (profit_percent details))) ;;
  assign_position ∅.

(** The [except] branch of [sell_position] (lines 318-320) taken in the
    world [e]: the Position is not touched, the failure is notified. *)
Definition sell_failed (ex : exn) (e : Env W) (b : TradingBot W)
  : TradingBot W :=
  set_env (send_message (MsgSellFailed ex) e) b.

(** [sell_position] (lines 276-320). *)
Definition sell_position (reason : string) (b : TradingBot W) : TradingBot W :=
  if dict_is_empty (position b) then b
  else
    let amount_to_sell := dict_get (position b) "amount" PNone in
    if negb (truthy amount_to_sell) then b
    else try_except (sell_body reason amount_to_sell)
                    (fun ex => notify (MsgSellFailed ex)) b.

(** Lines 330-352: the [try] block of [buy_position]. *)
Definition buy_body : M W unit :=
  sym ← gets symbol;
  b ← gets budget;
  ticker ← lift_env (gw_fetch_ticker sym);
  current_price ← lift (dict_index ticker "last");
  qty ← lift (py_div (PNum (b * (9995 # 10000))) current_price);
  order ← lift_env (gw_create_market_buy_order sym qty);
  let quoted := py_or (dict_get order "average" PNone)
                      (dict_get order "price" PNone) in
  let entry := if truthy quoted then quoted else current_price in
  stamp ← timestamp_now;
  assign_position
    (<["entry_price" := entry]>
       (<["amount" := dict_get order "filled" qty]>
          (<["timestamp" := stamp]> ∅))) ;;
  lift (py_format_f entry) ;;
  pos ← gets position;
  held ← lift (dict_index pos "amount");
  lift (py_format_f held) ;;
  do_env (send_message (MsgBought sym entry held)).

(** [buy_position] (lines 323-356). *)
Definition buy_position (b : TradingBot W) : TradingBot W :=
  if negb (dict_is_empty (position b)) then b
  else try_except buy_body (fun ex => notify (MsgBuyFailed ex)) b.

(** [close] (lines 396-401); [self.exchange] is an object, hence true.
    A failing [exchange.close()] is not caught here. *)
Definition close : M W unit :=
  lift_env gw_close ;;
  do_env (send_message MsgClosed).

(** [initialize] (lines 263-274).  [self.close()] runs inside the
    handler, so what it raises leaves [initialize]. *)
Definition initialize : M W bool :=
  fun b =>
    match lift_env gw_load_markets b with
    | (Ok _, b1) =>
        (Ok true, notify (MsgStarted SELECTED_STRATEGY (symbol b1)) b1)
    | (Raise ex, b1) =>
        (close;; mret false) (notify (MsgStartFailed ex) b1)
    end.

End Methods.

Section ControlLoop.
Context {W : Type} `{World W}.

(** [self.strategy.get_signal()] on whichever class the object has. *)
Definition strategy_get_signal (b : TradingBot W) : signal * TradingBot W :=
  match strategy b with
  | VolatilityBreakout s =>
      let '(sig, s1, e1) :=
        VolatilityBreakoutStrategy.get_signal (symbol b) s (env b) in
      (sig, set_env e1 (set_strategy (VolatilityBreakout s1) b))
  | RSI s =>
      let '(sig, e1) := RSIStrategy.get_signal (symbol b) s (env b) in
      (sig, set_env e1 b)
  end.

(** [if hasattr(self.strategy, 'reset'): self.strategy.reset()] *)
Definition strategy_reset (b : TradingBot W) : TradingBot W :=
  match strategy b with
  | VolatilityBreakout s =>
      set_strategy (VolatilityBreakout (VolatilityBreakoutStrategy.reset s)) b
  | RSI _ => b
  end.

(** [if hasattr(self.strategy, 'prepare_data'): await
    self.strategy.prepare_data()]; also the [isinstance] test that opens
    [run], which holds for the same class. *)
Definition strategy_prepare_data (b : TradingBot W) : TradingBot W :=
  match strategy b with
  | VolatilityBreakout s =>
      let '(s1, e1) :=
        VolatilityBreakoutStrategy.prepare_data (symbol b) s (env b) in
      set_env e1 (set_strategy (VolatilityBreakout s1) b)
  | RSI _ => b
  end.

(** Line 367. *)
Definition in_reset_window (t : datetime) : bool :=
  (hour t =? MARKET_RESET_HOUR)%nat && (minute t =? 0)%nat
  && (second t <? 10)%nat.

(** Line 393. *)
Definition sleep_duration (s : Strategy) : nat :=
  match s with RSI _ => 5 | VolatilityBreakout _ => 2 end.

Definition bot_sleep (secs : nat) (b : TradingBot W) : TradingBot W :=
  set_env (py_sleep secs (env b)) b.

(** Lines 370-379: what one pass does inside the reset window. *)
Definition reset_pass (b : TradingBot W) : TradingBot W :=
  bot_sleep 60
    (strategy_prepare_data
       (strategy_reset (sell_position REASON_SCHEDULED b))).

(** Lines 381-394: what one pass does outside the reset window.  Neither
    [get_signal] nor [buy_position] nor [sell_position] lets an exception
    out, so the handler of lines 389-391 never runs. *)
Definition trading_pass (b : TradingBot W) : TradingBot W :=
  let '(sig, b1) := strategy_get_signal b in
  let b2 :=
    match sig with
    | BUY => if dict_is_empty (position b1) then buy_position b1 else b1
    | SELL =>
        if negb (dict_is_empty (position b1))
        then sell_position REASON_STRATEGY b1 else b1
    | HOLD => b1
    end in
  bot_sleep (sleep_duration (strategy b2)) b2.

(** One pass of [while True] (lines 364-394). *)
Definition run_tick (b : TradingBot W) : TradingBot W :=
  if in_reset_window (now (world (env b))) then reset_pass b
  else trading_pass b.

(** The first [n] passes of the loop. *)
Fixpoint run_loop (n : nat) (b : TradingBot W) : TradingBot W :=
  match n with
  | O => b
  | S k => run_loop k (run_tick b)
  end.

(** [run] (lines 358-394), stopped after [n] passes. *)
Definition run (n : nat) (b : TradingBot W) : TradingBot W :=
  run_loop n (strategy_prepare_data b).

(** [_create_strategy_instance] (lines 254-261). *)
Definition create_strategy_instance (strategy_name : string) : result Strategy :=
  if String.eqb strategy_name "VolatilityBreakout" then
    Ok (VolatilityBreakout
          (VolatilityBreakoutStrategy.init
             VolatilityBreakoutStrategy.default_params))
  else if String.eqb strategy_name "RSI" then
    Ok (RSI (RSIStrategy.mk RSIStrategy.default_params))
  else Raise ValueError.

(** [TradingBot.__init__] (lines 234-242), credentials granted. *)
Definition new_bot (sym : string) (money : Q) (strategy_name : string) (w : W)
  : result (TradingBot W) :=
  match create_strategy_instance strategy_name with
  | Ok s => Ok (mk_bot sym money ∅ s (mk_env w []))
  | Raise ex => Raise ex
  end.

(** Lines 414-422 of [main], on the bot it constructed, the loop stopped
    after [n] passes: [None] when [main] returns, [Some ex] when [ex]
    leaves it. *)
Definition main_from (n : nat) (b : TradingBot W) : option exn * TradingBot W :=
  match initialize b with
  | (Ok false, b1) => (None, b1)
  | (Raise ex, b1) => (Some ex, b1)
  | (Ok true, b1) =>
      match close (run n b1) with
      | (Ok _, b2) => (None, b2)
      | (Raise ex, b2) => (Some ex, b2)
      end
  end.

(** [main] (lines 406-422): the bot is built from the module-level
    configuration; an exception of the constructor leaves [main]. *)
Definition main (n : nat) (w : W) : option exn * option (TradingBot W) :=
  match new_bot TARGET_SYMBOL TRADE_BUDGET_KRW SELECTED_STRATEGY w with
  | Raise ex => (Some ex, None)
  | Ok b => let '(r, b1) := main_from n b in (r, Some b1)
  end.

End ControlLoop.

(** The signals of [n] successive [get_signal] calls on the breakout
    strategy, with the strategy and the world they leave. *)
Fixpoint poll {W} `{World W} (n : nat) (sym : string)
  (s : VolatilityBreakoutStrategy.t) (e : Env W)
  : list signal * VolatilityBreakoutStrategy.t * Env W :=
  match n with
  | O => ([], s, e)
  | S k =>
      let '(sig, s1, e1) := VolatilityBreakoutStrategy.get_signal sym s e in
      let '(sigs, s2, e2) := poll k sym s1 e1 in
      (sig :: sigs, s2, e2)
  end.

(** ** Reading the trace *)

(** The trace in the order the events happened. *)
Definition history {W} (b : TradingBot W) : list event := rev (trace (env b)).

(** The rows handed to the recorder, newest first. *)
Definition records (tr : list event) : list TradeRecord :=
  omap (fun ev => match ev with LogTrade d => Some d | _ => None end) tr.

(** The number of Positions the bot holds: [self.position] is one slot. *)
Definition open_positions {W} (b : TradingBot W) : nat :=
  if dict_is_empty (position b) then 0 else 1.

(** The number of buy orders the exchange accepted since the last sell
    order it accepted: the Positions open on the exchange's side. *)
Fixpoint open_fills (tr : list event) : nat :=
  match tr with
  | [] => 0
  | Gateway (CreateMarketBuyOrder _ _) true :: older => S (open_fills older)
  | Gateway (CreateMarketSellOrder _ _) true :: older => 0
  | _ :: older => open_fills older
  end.

(** The largest value [open_fills] took at any moment of the trace. *)
Fixpoint max_open_fills (tr : list event) : nat :=
  match tr with
  | [] => 0
  | _ :: older => Nat.max (open_fills tr) (max_open_fills older)
  end.

(** The bot and the exchange agree: the exchange never held two fills at
    once, and holds none that the bot does not know of. *)
Definition consistent {W} (b : TradingBot W) : Prop :=
  (max_open_fills (trace (env b)) <= 1)%nat
  /\ (open_fills (trace (env b)) <= open_positions b)%nat.

(** A step of the world that places no order. *)
Definition no_order {W} (e e' : Env W) : Prop :=
  open_fills (trace e') = open_fills (trace e)
  /\ max_open_fills (trace e') = max_open_fills (trace e).

(** ** A scripted world

    A test double for the exchange: each gateway method answers from its
    own queue and raises when the queue is empty; the clock only moves
    when the bot sleeps.  Its indicator returns the closing prices as the
    series, and declines on an empty frame. *)

Record Script := mk_script {
  clock : datetime;
  markets : result unit;
  tickers : list (result pydict);
  candles : list (result (list candle));
  buys : list (result pydict);
  sells : list (result pydict);
  closing : result unit
}.

Definition unscripted {A} : result A := Raise (ExchangeError "unscripted").

Definition advance (secs : nat) (t : datetime) : datetime :=
  let total := (hour t * 3600 + minute t * 60 + second t + secs)%nat in
  mk_datetime (year t) (month t) (day t)
              ((total / 3600) mod 24)%nat ((total / 60) mod 60)%nat
              (total mod 60)%nat.

Definition script_sleep (secs : nat) (w : Script) : Script :=
  mk_script (advance secs (clock w)) (markets w) (tickers w) (candles w)
            (buys w) (sells w) (closing w).

Definition script_ticker (w : Script) : result pydict * Script :=
  (hd unscripted (tickers w),
   mk_script (clock w) (markets w) (tl (tickers w)) (candles w)
             (buys w) (sells w) (closing w)).

Definition script_ohlcv (w : Script) : result (list candle) * Script :=
  (hd unscripted (candles w),
   mk_script (clock w) (markets w) (tickers w) (tl (candles w))
             (buys w) (sells w) (closing w)).

Definition script_buy (w : Script) : result pydict * Script :=
  (hd unscripted (buys w),
   mk_script (clock w) (markets w) (tickers w) (candles w)
             (tl (buys w)) (sells w) (closing w)).

Definition script_sell (w : Script) : result pydict * Script :=
  (hd unscripted (sells w),
   mk_script (clock w) (markets w) (tickers w) (candles w)
             (buys w) (tl (sells w)) (closing w)).

Definition script_rsi (length : Q) (rows : list candle) : option (list fval) :=
  match rows with
  | [] => None
  | _ => Some (map (fun c => Fin (c_close c)) rows)
  end.

#[export] Instance ScriptWorld : World Script := {
  now := clock;
  sleep := script_sleep;
  load_markets w := (markets w, w);
  fetch_ticker _ := script_ticker;
  fetch_ohlcv _ _ _ := script_ohlcv;
  create_market_buy_order _ _ := script_buy;
  create_market_sell_order _ _ := script_sell;
  close_exchange w := (closing w, w);
  ta_rsi := script_rsi
}.

Definition noon : datetime := mk_datetime 2024 1 15 12 0 0.
Definition nine_sharp : datetime := mk_datetime 2024 1 15 9 0 3.

(** A ticker [{'last': p}] and a fill [{'average': a, 'price': None,
    'filled': f}]. *)
Definition ticker_at (p : Q) : pydict := {[ "last" := PNum p ]}.

Definition fill (average filled : pyval) : pydict :=
  {[ "average" := average; "price" := PNone; "filled" := filled ]}.

(** An open Position as [buy_position] writes it. *)
Definition position_of (entry qty : pyval) (t : datetime) : pydict :=
  <["entry_price" := entry]>
    (<["amount" := qty]> (<["timestamp" := PStamp t]> ∅)).

Definition breakout (target : option Q) (fired : bool) : Strategy :=
  VolatilityBreakout
    (VolatilityBreakoutStrategy.mk VolatilityBreakoutStrategy.default_params
                                   target fired).

Definition quiet (t : datetime) : Script :=
  mk_script t (Ok tt) [] [] [] [] (Ok tt).

(** ** Scenarios on the scripted world *)

(** The feed 90, 100, 101 against the target 100: the third quote is the
    first above the target. *)
Definition rising_feed : Env Script :=
  mk_env (mk_script noon (Ok tt)
            [Ok (ticker_at 90); Ok (ticker_at 100); Ok (ticker_at 101);
             Ok (ticker_at 102)]
            [] [] [] (Ok tt)) [].

Definition armed : VolatilityBreakoutStrategy.t :=
  VolatilityBreakoutStrategy.mk VolatilityBreakoutStrategy.default_params
                                (Some 100%Q) false.

(** One daily candle only. *)
Definition one_candle : Env Script :=
  mk_env (mk_script noon (Ok tt) [Ok (ticker_at 500)]
            [Ok [mk_candle 0 100 120 90 110 1]] [] [] (Ok tt)) [].

(** One hourly window whose last close, the scripted indicator's last
    value, is [v]. *)
Definition window (v : Q) : Env Script :=
  mk_env (mk_script noon (Ok tt) []
            [Ok [mk_candle 0 v v v 60 1; mk_candle 1 v v v v 1]] [] [] (Ok tt))
         [].

Definition rsi_defaults : RSIStrategy.t :=
  RSIStrategy.mk RSIStrategy.default_params.

(** Thresholds the wrong way round: oversold 80, overbought 20. *)
Definition rsi_crossed : RSIStrategy.t :=
  RSIStrategy.mk {[ "oversold" := 80%Q; "overbought" := 20%Q ]}.

(** A day of trading on the scripted exchange: yesterday's range 100-120
    and today's open 90 give the target 100; the first quote is 101. *)
Definition breakout_day : Script :=
  mk_script noon (Ok tt)
    [Ok (ticker_at 101); Ok (ticker_at 101); Ok (ticker_at 105)]
    [Ok [mk_candle 0 95 120 100 110 1; mk_candle 1 90 91 89 90 1]]
    [Ok (fill (PNum 101) (PNum 49)); Ok (fill (PNum 105) (PNum 47))]
    [] (Ok tt).

Definition fresh_bot : TradingBot Script :=
  mk_bot TARGET_SYMBOL TRADE_BUDGET_KRW ∅ (breakout None false)
         (mk_env breakout_day []).

(** A bot that holds 2 units entered at 100, under a budget of 200, in
    front of the world [w]. *)
Definition holding (w : Script) : TradingBot Script :=
  mk_bot TARGET_SYMBOL 200 (position_of (PNum 100) (PNum 2) noon)
         (breakout None false) (mk_env w []).

(** A flat bot whose next buy order is filled with [filled] reported as
    given. *)
Definition buying (filled : pyval) : TradingBot Script :=
  mk_bot TARGET_SYMBOL 200 ∅ (breakout None false)
         (mk_env (mk_script noon (Ok tt) [Ok (ticker_at 100)] []
                    [Ok (fill (PNum 100) filled)]
                    [Ok (fill (PNum 110) (PNum 2))] (Ok tt)) []).

(** The bot holds 2 units entered at 100 under a budget of 200; the
    exchange accepts one sell order, reporting [average], and answers the
    next quote request with [quote]. *)
Definition selling (average : pyval) (quote : result pydict)
  : TradingBot Script :=
  holding (mk_script noon (Ok tt) [quote] [] []
             [Ok (fill average (PNum 2))] (Ok tt)).

Definition timeout : exn := ExchangeError "request timed out".

(** Inside the reset window, with the strategy armed below the market:
    asked, it would answer BUY. *)
Definition at_reset : TradingBot Script :=
  mk_bot TARGET_SYMBOL 200 (position_of (PNum 100) (PNum 2) noon)
         (breakout (Some 100%Q) false)
         (mk_env (mk_script nine_sharp (Ok tt) [Ok (ticker_at 500)]
                    [Ok [mk_candle 0 95 120 100 110 1;
                         mk_candle 1 90 91 89 90 1]]
                    [] [Ok (fill (PNum 110) (PNum 2))] (Ok tt)) []).

(** A flat bot in front of an exchange whose [load_markets] and [close]
    answer as given. *)
Definition starting (m c : result unit) : TradingBot Script :=
  mk_bot TARGET_SYMBOL TRADE_BUDGET_KRW ∅ (breakout None false)
         (mk_env (mk_script noon m [Ok (ticker_at 500)]
                    [Ok [mk_candle 0 95 120 100 110 1;
                         mk_candle 1 90 91 89 90 1]]
                    [Ok (fill (PNum 500) (PNum 9))] [] c) []).

Definition outage : exn := ExchangeError "exchange not available".
Definition hangup : exn := ExchangeError "connection reset on close".

(** ** More readings of the trace and of the bot *)

(** The event is a request for market data on [sym]. *)
Definition is_fetch (sym : string) (ev : event) : bool :=
  match ev with
  | Gateway (FetchTicker s) _ => String.eqb s sym
  | Gateway (FetchOHLCV s _ _) _ => String.eqb s sym
  | _ => false
  end.

(** The event is an order sent to the exchange, accepted or not. *)
Definition is_order (ev : event) : bool :=
  match ev with
  | Gateway (CreateMarketBuyOrder _ _) _ => true
  | Gateway (CreateMarketSellOrder _ _) _ => true
  | _ => false
  end.

(** The event is something a pass may do before it sleeps: a gateway call
    about [sym] other than [load_markets] and [close], a recorded row or
    a notification. *)
Definition is_trading (sym : string) (ev : event) : bool :=
  match ev with
  | Gateway (FetchTicker s) _ => String.eqb s sym
  | Gateway (FetchOHLCV s _ _) _ => String.eqb s sym
  | Gateway (CreateMarketBuyOrder s _) _ => String.eqb s sym
  | Gateway (CreateMarketSellOrder s _) _ => String.eqb s sym
  | Gateway LoadMarkets _ => false
  | Gateway Close _ => false
  | LogTrade _ => true
  | Notify _ => true
  | Sleep _ => false
  end.

(** The sleeps of the trace, newest first. *)
Definition sleeps (tr : list event) : list nat :=
  omap (fun ev => match ev with Sleep secs => Some secs | _ => None end) tr.

(** How many times [exchange.close()] was called. *)
Fixpoint closes (tr : list event) : nat :=
  match tr with
  | [] => 0
  | Gateway Close _ :: older => S (closes older)
  | _ :: older => closes older
  end.

(** [e'] continues the trace of [e] with events that all satisfy [P]. *)
Definition emits {W} (P : event -> bool) (e e' : Env W) : Prop :=
  exists new, trace e' = (new ++ trace e)%list /\ forallb P new = true.

(** The parameter bag of the strategy object. *)
Definition strategy_params (s : Strategy) : gmap string Q :=
  match s with
  | VolatilityBreakout v => VolatilityBreakoutStrategy.params v
  | RSI r => RSIStrategy.params r
  end.

(** [isinstance(self.strategy, RSIStrategy)] *)
Definition is_rsi (s : Strategy) : bool :=
  match s with RSI _ => true | VolatilityBreakout _ => false end.

(** The fields of the bot that are configuration. *)
Definition same_config {W} (b b' : TradingBot W) : Prop :=
  symbol b' = symbol b /\ budget b' = budget b
  /\ strategy_params (strategy b') = strategy_params (strategy b)
  /\ is_rsi (strategy b') = is_rsi (strategy b).

(** The sleep that ends a pass: 60 s in the reset window, else 5 s for
    the RSI strategy and 2 s for the breakout strategy. *)
Definition pass_sleep {W} `{World W} (b : TradingBot W) : nat :=
  if in_reset_window (now (world (env b))) then 60
  else if is_rsi (strategy b) then 5 else 2.


(** The event is one that a pass of the loop may leave: a trading event
    about [sym], or a sleep. *)
Definition is_loop_event (sym : string) (ev : event) : bool :=
  is_trading sym ev || match ev with Sleep _ => true | _ => false end.

(** ** More scenarios on the scripted world *)

(** Three daily candles: only the last two count. *)
Definition three_candles : Env Script :=
  mk_env (mk_script noon (Ok tt) [Ok (ticker_at 101)]
            [Ok [mk_candle 0 10 500 1 20 1;
                 mk_candle 1 95 120 100 110 1;
                 mk_candle 2 90 91 89 90 1]] [] [] (Ok tt)) [].

(** The candle request times out. *)
Definition candles_down : Env Script :=
  mk_env (mk_script noon (Ok tt) [Ok (ticker_at 500)]
            [Raise (ExchangeError "request timed out")] [] [] (Ok tt)) [].

(** A breakout strategy that has fired on the target 100. *)
Definition fired : VolatilityBreakoutStrategy.t :=
  VolatilityBreakoutStrategy.mk VolatilityBreakoutStrategy.default_params
                                (Some 100%Q) true.

(** The entry price [buy_position] keeps for a fill: its [average], else
    its [price], else the price quoted before the order (lines 338-340). *)
Definition entry_price_of (order : pydict) (current_price : pyval) : pyval :=
  let quoted := py_or (dict_get order "average" PNone)
                      (dict_get order "price" PNone) in
  if truthy quoted then quoted else current_price.

(** The Position is absent, or it has exactly the three entries that
    [buy_position] writes, with an entry price that is not falsy. *)
Definition well_formed (p : pydict) : Prop :=
  p = ∅
  \/ exists entry held t,
      p = position_of entry held t /\ truthy entry = true.

(** The [except] branch of [buy_position] (lines 354-356) taken in the
    world [w] after the gateway calls [calls]: nothing of the bot changes
    but the world and the trace, which ends with the failure notice. *)
Definition buy_failed {W} (ex : exn) (w : W) (calls : list event)
  (b : TradingBot W) : TradingBot W :=
  set_env (mk_env w (Notify (MsgBuyFailed ex) :: calls ++ trace (env b))%list) b.

(** A flat bot with a budget of 200 at noon: the exchange answers the
    first ticker request with [quote] and the first buy order with
    [answer], and fills one sell order at 110. *)
Definition flat_with (s : Strategy) (quote answer : result pydict)
  : TradingBot Script :=
  mk_bot TARGET_SYMBOL 200 ∅ s
         (mk_env (mk_script noon (Ok tt) [quote; quote] [] [answer]
                    [Ok (fill (PNum 110) (PNum 2))] (Ok tt)) []).

Definition refused : exn := ExchangeError "insufficient funds".

(** A flat bot with the RSI strategy whose next window ends at [v]. *)
Definition rsi_flat (v : Q) : TradingBot Script :=
  mk_bot TARGET_SYMBOL 200 ∅ (RSI rsi_defaults) (window v).

(** The bot of [at_reset], at noon. *)
Definition holding_armed : TradingBot Script :=
  mk_bot TARGET_SYMBOL 200 (position_of (PNum 100) (PNum 2) noon)
         (breakout (Some 100%Q) false)
         (mk_env (mk_script noon (Ok tt) [Ok (ticker_at 500)] [] []
                    [Ok (fill (PNum 110) (PNum 2))] (Ok tt)) []).

(** ** The trade log (lines 98-124)

    The files are a finite map from path to text, on which every [open]
    succeeds.  How [str] shows a value or a number is left open. *)

Module PerformanceLogger.

Definition newline : string := String (Ascii.ascii_of_nat 10) EmptyString.

(** The first line written to a new log (line 109). *)
Definition HEADER : string :=
  "entry_time,exit_time,symbol,entry_price,exit_price,amount,profit_krw,profit_percent"
  ++ newline.

(** [self.filename] and [self.log_file_exists]. *)
Record t := mk {
  filename : string;
  log_file_exists : bool
}.

(** [_initialize_file] (lines 105-110): [open(..., 'w')] and the header,
    only when the file was not there. *)
Definition initialize_file (lg : t) (fs : gmap string string)
  : gmap string string :=
  if negb (log_file_exists lg) then <[filename lg := HEADER]> fs else fs.

(** [__init__] (lines 100-103). *)
Definition init (path : string) (fs : gmap string string)
  : t * gmap string string :=
  let lg := mk path (bool_decide (is_Some (fs !! path))) in
  (lg, initialize_file lg fs).

Section Rows.
Variable py_str : pyval -> string.
Variable num_str : Q -> string.

(** The text of one row (lines 117-120). *)
Definition row (d : TradeRecord) : string :=
  py_str (entry_time d) ++ "," ++ py_str (exit_time d) ++ ","
  ++ tr_symbol d ++ "," ++ py_str (entry_price d) ++ ","
  ++ py_str (exit_price d) ++ "," ++ py_str (amount d) ++ ","
  ++ num_str (profit_krw d) ++ "," ++ num_str (profit_percent d)
  ++ newline.

(** [log_trade] (lines 112-124): [open(..., 'a')] creates the file when
    it is missing and otherwise writes after what is there. *)
Definition log_trade (lg : t) (d : TradeRecord) (fs : gmap string string)
  : gmap string string :=
  <[filename lg := default EmptyString (fs !! filename lg) ++ row d]> fs.

(** The rows of [ds], oldest first, as one text. *)
Definition rows (ds : list TradeRecord) : string :=
  foldr (fun d rest => row d ++ rest) EmptyString ds.

(** [log_trade] for each of [ds] in turn. *)
Definition log_trades (lg : t) (ds : list TradeRecord)
  (fs : gmap string string) : gmap string string :=
  foldl (fun acc d => log_trade lg d acc) fs ds.

End Rows.

(** The separator of the fields. *)
Definition comma : Ascii.ascii := Ascii.ascii_of_nat 44.

(** How many times the character [c] occurs in [s]. *)
Fixpoint count_char (c : Ascii.ascii) (s : string) : nat :=
  match s with
  | EmptyString => 0
  | String a rest =>
      (if Ascii.eqb a c then 1 else 0) + count_char c rest
  end.

End PerformanceLogger.

(** ** The notifier (lines 74-96)

    The network is a parameter: a GET request returns a status code or
    raises a [RequestException], and moves the network on. *)

Module NotificationManager.

(** [self.token] and [self.chat_id] as [os.getenv] returns them: [None]
    or a string. *)
Record t := mk {
  token : option string;
  chat_id : option string
}.

(** Truth value of what [os.getenv] returns: [None] and the empty string
    are false. *)
Definition configured (v : option string) : bool :=
  match v with
  | None => false
  | Some EmptyString => false
  | Some _ => true
  end.

(** [requests.get(url, params={'chat_id': ..., 'text': ...}, timeout=...)] *)
Record request := mk_request {
  url : string;
  to_chat : string;
  text : string;
  timeout_secs : nat
}.

Class Network (N : Type) := {
  http_get : request -> N -> result nat * N
}.

(** [send_message] (lines 84-96).  The request's outcome only decides
    which line is logged: a [RequestException], also the [HTTPError] of
    [raise_for_status], is caught. *)
Definition send_message {N} `{Network N} (nm : t) (message : string)
  (net : N * list request) : N * list request :=
  if negb (configured (token nm)) || negb (configured (chat_id nm)) then net
  else
    let req :=
      mk_request ("https://api.telegram.org/bot"
                  ++ default EmptyString (token nm) ++ "/sendMessage")
                 (default EmptyString (chat_id nm)) message 5 in
    let '(_, n1) := http_get req (fst net) in
    (n1, req :: snd net).

(** [send_message] for each of [messages] in turn. *)
Definition send_all {N} `{Network N} (nm : t) (messages : list string)
  (net : N * list request) : N * list request :=
  foldl (fun acc m => send_message nm m acc) net messages.

End NotificationManager.

(** The request that carries [message] to the chat [chat] through the bot
    [tok] (lines 89-92). *)
Definition request_for (tok chat message : string)
  : NotificationManager.request :=
  NotificationManager.mk_request
    ("https://api.telegram.org/bot" ++ tok ++ "/sendMessage") chat message 5.

(** A network that answers every request with the status 200, and one
    on which every request times out. *)
Inductive Wire := Up | Down.

#[export] Instance WireNetwork : NotificationManager.Network Wire := {
  http_get _ n :=
    match n with
    | Up => (Ok 200%nat, Up)
    | Down => (Raise (ExchangeError "timed out"), Down)
    end
}.

(** ** Building the bot (lines 234-261)

    The process environment and the files are finite maps; [ccxt] gives,
    for the name of an exchange it knows, the class that builds the
    exchange object from the two keys; a class, once found, is taken
    to return its object.  [upper] is [str.upper] on ASCII letters,
    which is what exchange names are made of. *)

Definition ascii_upper (c : Ascii.ascii) : Ascii.ascii :=
  let n := Ascii.nat_of_ascii c in
  if (97 <=? n)%nat && (n <=? 122)%nat then Ascii.ascii_of_nat (n - 32)
  else c.

Fixpoint upper (s : string) : string :=
  match s with
  | EmptyString => EmptyString
  | String c rest => String (ascii_upper c) (upper rest)
  end.

(** What leaves the constructor: the [ValueError] of line 249, the
    [AttributeError] of [getattr] at line 251, the [ValueError] of
    line 261. *)
Inductive init_error :=
| MissingKeys
| NoSuchExchange (name : string)
| UnsupportedStrategy (name : string).

(** The finished object: the bot with its notifier and its logger. *)
Record Constructed (W : Type) := mk_constructed {
  built_bot : TradingBot W;
  built_notifier : NotificationManager.t;
  built_logger : PerformanceLogger.t
}.
Arguments mk_constructed {W} built_bot built_notifier built_logger.
Arguments built_bot {W} _.
Arguments built_notifier {W} _.
Arguments built_logger {W} _.

Section Construction.
Context {W : Type}.
Variable ccxt : string -> option (string -> string -> W).

(** [_create_exchange_instance] (lines 244-252). *)
Definition create_exchange_instance (environ : gmap string string)
  (exchange_name : string) : init_error + W :=
  let api_key := environ !! (upper exchange_name ++ "_ACCESS_KEY") in
  let secret_key := environ !! (upper exchange_name ++ "_SECRET_KEY") in
  if negb (NotificationManager.configured api_key)
     || negb (NotificationManager.configured secret_key)
  then inl MissingKeys
  else
    match ccxt exchange_name with
    | None => inl (NoSuchExchange exchange_name)
    | Some exchange_class =>
        inr (exchange_class (default EmptyString api_key)
                            (default EmptyString secret_key))
    end.

(** [NotificationManager.__init__] (lines 76-82). *)
Definition new_notifier (environ : gmap string string)
  : NotificationManager.t :=
  NotificationManager.mk (environ !! "TELEGRAM_BOT_TOKEN")
                         (environ !! "TELEGRAM_CHAT_ID").

(** [TradingBot.__init__] (lines 234-242): the exchange, the notifier,
    the logger, which creates its file, and only then the strategy.  The
    second component is the files as the constructor leaves them. *)
Definition construct (environ files : gmap string string)
  (exchange_name sym : string) (money : Q) (strategy_name : string)
  : (init_error + Constructed W) * gmap string string :=
  match create_exchange_instance environ exchange_name with
  | inl err => (inl err, files)
  | inr w =>
      let notifier := new_notifier environ in
      let '(logger, files1) := PerformanceLogger.init "trade_log.csv" files in
      match create_strategy_instance strategy_name with
      | Raise _ => (inl (UnsupportedStrategy strategy_name), files1)
      | Ok s =>
          (inr (mk_constructed (mk_bot sym money ∅ s (mk_env w []))
                               notifier logger), files1)
      end
  end.

End Construction.

(** * Properties *)

(** ** Basic facts *)

Lemma dict_is_empty_true (d : pydict) : dict_is_empty d = true <-> d = ∅.
Proof.
  unfold dict_is_empty. rewrite Nat.eqb_eq. apply map_size_empty_iff.
Qed.

Lemma dict_is_empty_false (d : pydict) : dict_is_empty d = false <-> d ≠ ∅.
Proof.
  rewrite <- dict_is_empty_true. destruct (dict_is_empty d); split; congruence.
Qed.

Lemma Qlt_bool_iff (x y : Q) : Qlt_bool x y = true <-> (x < y)%Q.
Proof.
  unfold Qlt_bool. rewrite negb_true_iff. split.
  - intros Hb. apply Qnot_le_lt. intros Hle.
    apply Qle_bool_iff in Hle. congruence.
  - intros Hlt. destruct (Qle_bool y x) eqn:Hb; [|reflexivity].
    apply Qle_bool_iff in Hb. exfalso. exact (Qlt_not_le _ _ Hlt Hb).
Qed.

Lemma Qlt_bool_false_iff (x y : Q) : Qlt_bool x y = false <-> (y <= x)%Q.
Proof.
  unfold Qlt_bool. rewrite negb_false_iff. apply Qle_bool_iff.
Qed.

Lemma truthy_num (q : Q) : truthy (PNum q) = true <-> ~ (q == 0)%Q.
Proof.
  simpl. rewrite negb_true_iff. split.
  - intros Hb Heq. apply Qeq_bool_iff in Heq. congruence.
  - intros Hne. destruct (Qeq_bool q 0) eqn:Hb; [|reflexivity].
    apply Qeq_bool_iff in Hb. contradiction.
Qed.

(** Rounding moves a number by at most half a unit, and [round(_, 2)] by
    at most half a hundredth. *)
Lemma round_half_even_near (q : Q) :
  (inject_Z (round_half_even q) - q <= 1 # 2)%Q
  /\ (q - inject_Z (round_half_even q) <= 1 # 2)%Q.
Proof.
  unfold round_half_even.
  pose proof (Qfloor_le q) as Hlo. pose proof (Qlt_floor q) as Hhi.
  rewrite inject_Z_plus in Hhi. change (inject_Z 1) with 1%Q in Hhi.
  generalize dependent (Qfloor q). intros n Hlo Hhi.
  destruct (Qcompare_spec (q - inject_Z n) (1 # 2)) as [Heq|Hlt|Hgt].
  - destruct (Z.even n);
      [|rewrite inject_Z_plus; change (inject_Z 1) with 1%Q]; split; lra.
  - split; lra.
  - rewrite inject_Z_plus. change (inject_Z 1) with 1%Q. split; lra.
Qed.

Lemma py_round2_near (q : Q) :
  (py_round2 q - q <= 1 # 200)%Q /\ (q - py_round2 q <= 1 # 200)%Q.
Proof.
  unfold py_round2. destruct (round_half_even_near (q * 100)) as [H1 H2].
  generalize dependent (inject_Z (round_half_even (q * 100))).
  intros z H1 H2.
  unfold Qdiv. change (/ 100)%Q with (1 # 100)%Q. split; lra.
Qed.

Lemma dict_get_some (d : pydict) k v dflt :
  d !! k = Some v -> dict_get d k dflt = v.
Proof. intros Hk. unfold dict_get. rewrite Hk. reflexivity. Qed.

Lemma dict_get_none (d : pydict) k dflt :
  d !! k = None -> dict_get d k dflt = dflt.
Proof. intros Hk. unfold dict_get. rewrite Hk. reflexivity. Qed.

(** Case analysis on the next [match], [if] or destructuring [let]. *)
Ltac split_match :=
  match goal with
  | |- context [match ?x with _ => _ end] => destruct x eqn:?
  end.

(** ** The breakout strategy *)

Section Breakout.
Context {W : Type} `{World W}.
Import VolatilityBreakoutStrategy.

(** Once fired, or with no target, [get_signal] answers HOLD and touches
    neither the strategy nor the exchange. *)
Lemma get_signal_idle sym (s : t) (e : Env W) :
  bought s = true \/ target_price s = None ->
  get_signal sym s e = (HOLD, s, e).
Proof.
  unfold get_signal. intros [-> | ->]; [reflexivity|].
  destruct (bought s); reflexivity.
Qed.

Lemma poll_idle sym (s : t) (e : Env W) n :
  bought s = true \/ target_price s = None ->
  poll n sym s e = (repeat HOLD n, s, e).
Proof.
  intros Hidle. induction n as [|n IH]; [reflexivity|].
  cbn [poll repeat]. rewrite (get_signal_idle _ _ _ Hidle), IH. reflexivity.
Qed.

(** A quote that does not exceed the target gives HOLD and leaves the
    strategy as it was. *)
Lemma get_signal_below sym (s : t) (e : Env W) target tk w1 p :
  target_price s = Some target -> bought s = false ->
  fetch_ticker sym (world e) = (Ok tk, w1) ->
  tk !! "last" = Some (PNum p) -> (p <= target)%Q ->
  get_signal sym s e
  = (HOLD, s, mk_env w1 (Gateway (FetchTicker sym) true :: trace e)).
Proof.
  intros Ht Hb Hf Hl Hle. unfold get_signal, gw_fetch_ticker, gateway.
  rewrite Ht, Hb, Hf. unfold dict_index. rewrite Hl. cbn.
  apply Qlt_bool_false_iff in Hle. rewrite Hle. reflexivity.
Qed.

(** A quote strictly above the target gives BUY and sets the flag. *)
Lemma get_signal_above sym (s : t) (e : Env W) target tk w1 p :
  target_price s = Some target -> bought s = false ->
  fetch_ticker sym (world e) = (Ok tk, w1) ->
  tk !! "last" = Some (PNum p) -> (target < p)%Q ->
  get_signal sym s e
  = (BUY, mk (params s) (Some target) true,
     mk_env w1 (Gateway (FetchTicker sym) true :: trace e)).
Proof.
  intros Ht Hb Hf Hl Hlt. unfold get_signal, gw_fetch_ticker, gateway.
  rewrite Ht, Hb, Hf. unfold dict_index. rewrite Hl. cbn.
  apply Qlt_bool_iff in Hlt. rewrite Hlt. reflexivity.
Qed.

(** Whatever the exchange answers: BUY comes with the flag set, and a set
    flag stays set. *)
Lemma get_signal_flag sym (s : t) (e : Env W) :
  (fst (fst (get_signal sym s e)) = BUY
   -> bought (snd (fst (get_signal sym s e))) = true)
  /\ (bought s = true -> bought (snd (fst (get_signal sym s e))) = true).
Proof.
  unfold get_signal. repeat split_match; cbn; split; congruence.
Qed.

Lemma prepare_data_flag sym (s : t) (e : Env W) :
  bought (fst (prepare_data sym s e)) = bought s.
Proof.
  unfold prepare_data. repeat split_match; reflexivity.
Qed.

End Breakout.

Section BreakoutClaims.
Context {W : Type} `{World W}.
Import VolatilityBreakoutStrategy.

(** C3 (breakout single-fire).  With a target defined and the flag clear,
    let the first two quotes not exceed the target and the third exceed
    it strictly.  Then, for every number [n] of later calls and whatever
    the exchange would quote from then on, [3 + n] successive
    [get_signal] calls answer HOLD, HOLD, BUY and then [n] times HOLD;
    the flag is set by the call that answers BUY, no later call asks the
    exchange again, and [reset] clears the flag.  Moreover, in every state
    of the strategy and the world: a call that answers BUY leaves the
    flag set, a set flag survives [get_signal] and [prepare_data], so
    only [reset] clears it. *)
Theorem breakout_single_fire sym (s : t) (e : Env W)
    target tk1 tk2 tk3 w1 w2 w3 p1 p2 p3 :
  target_price s = Some target -> bought s = false ->
  fetch_ticker sym (world e) = (Ok tk1, w1) ->
  tk1 !! "last" = Some (PNum p1) -> (p1 <= target)%Q ->
  fetch_ticker sym w1 = (Ok tk2, w2) ->
  tk2 !! "last" = Some (PNum p2) -> (p2 <= target)%Q ->
  fetch_ticker sym w2 = (Ok tk3, w3) ->
  tk3 !! "last" = Some (PNum p3) -> (target < p3)%Q ->
  (forall n,
      exists s3 e3,
        poll 3 sym s e = ([HOLD; HOLD; BUY], s3, e3)
        /\ bought s3 = true
        /\ poll (3 + n) sym s e = (([HOLD; HOLD; BUY] ++ repeat HOLD n)%list, s3, e3)
        /\ bought (reset s3) = false)
  /\ (forall sym' (s' : t) (e' : Env W),
         (fst (fst (get_signal sym' s' e')) = BUY
          -> bought (snd (fst (get_signal sym' s' e'))) = true)
         /\ (bought s' = true
             -> bought (snd (fst (get_signal sym' s' e'))) = true)
         /\ bought (fst (prepare_data sym' s' e')) = bought s').
Proof.
  intros Ht Hb Hf1 Hl1 Hle1 Hf2 Hl2 Hle2 Hf3 Hl3 Hlt3. split.
  - intros n.
    set (e1 := mk_env w1 (Gateway (FetchTicker sym) true :: trace e)).
    set (e2 := mk_env w2 (Gateway (FetchTicker sym) true :: trace e1)).
    set (e3 := mk_env w3 (Gateway (FetchTicker sym) true :: trace e2)).
    set (s3 := mk (params s) (Some target) true).
    assert (H1 : get_signal sym s e = (HOLD, s, e1))
      by (eapply get_signal_below; eauto).
    assert (H2 : get_signal sym s e1 = (HOLD, s, e2))
      by (eapply get_signal_below; eauto).
    assert (H3 : get_signal sym s e2 = (BUY, s3, e3))
      by (eapply get_signal_above; eauto).
    assert (Hrest : forall k, poll k sym s3 e3 = (repeat HOLD k, s3, e3))
      by (intros k; apply poll_idle; left; reflexivity).
    exists s3, e3. repeat split.
    + cbn [poll]. rewrite H1, H2, H3. reflexivity.
    + change (3 + n)%nat with (S (S (S n))). cbn [poll].
      rewrite H1, H2, H3, Hrest. reflexivity.
  - intros sym' s' e'. destruct (get_signal_flag sym' s' e') as [Hbuy Hkeep].
    repeat split; [exact Hbuy | exact Hkeep | apply prepare_data_flag].
Qed.

(** C7 (insufficient data).  When the exchange returns fewer than two
    daily candles, [prepare_data] leaves the target undefined, and from
    then on any number of [get_signal] calls answer HOLD, without asking
    the exchange and without changing the strategy.  [get_signal] is a
    total function: it never raises. *)
Theorem breakout_insufficient_data sym (s : t) (e : Env W) ohlcv w1 :
  fetch_ohlcv sym "1d" 2 (world e) = (Ok ohlcv, w1) ->
  (length ohlcv < 2)%nat ->
  target_price (fst (prepare_data sym s e)) = None
  /\ forall n,
      poll n sym (fst (prepare_data sym s e)) (snd (prepare_data sym s e))
      = (repeat HOLD n, fst (prepare_data sym s e),
         snd (prepare_data sym s e)).
Proof.
  intros Hf Hlen.
  assert (Hp : prepare_data sym s e
               = (set_target s None,
                  mk_env w1 (Gateway (FetchOHLCV sym "1d" 2) true :: trace e))).
  { unfold prepare_data, gw_fetch_ohlcv, gateway. rewrite Hf. cbv beta iota.
    apply Nat.ltb_lt in Hlen. rewrite Hlen. reflexivity. }
  rewrite Hp. cbn [fst snd]. split; [reflexivity|].
  intros n. apply poll_idle. right. reflexivity.
Qed.

End BreakoutClaims.

Lemma breakout_single_fire_witness :
  fst (fst (poll 7 TARGET_SYMBOL armed rising_feed))
  = [HOLD; HOLD; BUY; HOLD; HOLD; HOLD; HOLD].
Proof.
  pose proof (@breakout_single_fire Script ScriptWorld
                TARGET_SYMBOL armed rising_feed
                100%Q (ticker_at 90) (ticker_at 100) (ticker_at 101)
                _ _ _ 90%Q 100%Q 101%Q
                eq_refl eq_refl eq_refl eq_refl ltac:(discriminate)
                eq_refl eq_refl ltac:(discriminate)
                eq_refl eq_refl ltac:(reflexivity)) as [Hfeed _].
  destruct (Hfeed 4%nat) as (s3 & e3 & _ & _ & Hpoll & _).
  change (3 + 4)%nat with 7%nat in Hpoll. rewrite Hpoll. reflexivity.
Defined.

Lemma breakout_insufficient_data_witness :
  VolatilityBreakoutStrategy.target_price
    (fst (VolatilityBreakoutStrategy.prepare_data TARGET_SYMBOL armed one_candle))
  = None
  /\ fst (fst (poll 3 TARGET_SYMBOL
                 (fst (VolatilityBreakoutStrategy.prepare_data
                         TARGET_SYMBOL armed one_candle))
                 (snd (VolatilityBreakoutStrategy.prepare_data
                         TARGET_SYMBOL armed one_candle))))
     = [HOLD; HOLD; HOLD].
Proof.
  destruct (@breakout_insufficient_data Script ScriptWorld
              TARGET_SYMBOL armed one_candle
              [mk_candle 0 100 120 90 110 1]
              (snd (script_ohlcv (world one_candle))) eq_refl
              ltac:(cbn; lia))
    as [Htarget Hpoll].
  split; [exact Htarget|]. rewrite (Hpoll 3%nat). reflexivity.
Defined.

(** ** The RSI strategy *)

Section RSIClaims.
Context {W : Type} `{World W}.
Import RSIStrategy.

Lemma classify_spec (s : t) (v : Q) :
  let os := params_get (params s) "oversold" 30 in
  let ob := params_get (params s) "overbought" 70 in
  (classify s (Fin v) = BUY <-> (v < os)%Q)
  /\ (classify s (Fin v) = SELL <-> (os <= v)%Q /\ (ob < v)%Q)
  /\ (classify s (Fin v) = HOLD <-> (os <= v)%Q /\ (v <= ob)%Q).
Proof.
  cbv zeta. unfold classify, flt, fgt.
  destruct (Qlt_bool v _) eqn:Hos; [|destruct (Qlt_bool _ v) eqn:Hob].
  - apply Qlt_bool_iff in Hos.
    repeat split; try discriminate; try tauto;
      intros [Hle _]; exfalso; exact (Qlt_not_le _ _ Hos Hle).
  - apply Qlt_bool_false_iff in Hos. apply Qlt_bool_iff in Hob.
    repeat split; try discriminate; try tauto.
    + intros Hlt. exfalso. exact (Qlt_not_le _ _ Hlt Hos).
    + intros [_ Hle]. exfalso. exact (Qlt_not_le _ _ Hob Hle).
  - apply Qlt_bool_false_iff in Hos. apply Qlt_bool_false_iff in Hob.
    repeat split; try discriminate; try tauto.
    + intros Hlt. exfalso. exact (Qlt_not_le _ _ Hlt Hos).
    + intros [_ Hlt]. exfalso. exact (Qlt_not_le _ _ Hlt Hob).
Qed.

Lemma get_signal_computed sym (s : t) (e : Env W) ohlcv w1 series x :
  fetch_ohlcv sym "1h" 100 (world e) = (Ok ohlcv, w1) ->
  ta_rsi (params_get (params s) "rsi_period" 14) ohlcv = Some series ->
  last series = Some x ->
  fst (get_signal sym s e) = classify s x.
Proof.
  intros Hf Hs Hl. unfold get_signal, gw_fetch_ohlcv, gateway, timeframe.
  rewrite Hf. cbv beta iota. rewrite Hs, Hl. reflexivity.
Qed.


End RSIClaims.



(** ** Selling and buying *)

Arguments gw_create_market_sell_order : simpl never.
Arguments gw_create_market_buy_order : simpl never.
Arguments gw_fetch_ticker : simpl never.
Arguments gw_fetch_ohlcv : simpl never.
Arguments gw_load_markets : simpl never.
Arguments gw_close : simpl never.
Arguments exit_price_of : simpl never.
Arguments trade_details : simpl never.
Arguments dict_index : simpl never.
Arguments dict_get : simpl never.
Arguments dict_is_empty : simpl never.
Arguments py_div : simpl never.
Arguments py_format_f : simpl never.
Arguments truthy : simpl never.

Section Orders.
Context {W : Type} `{World W}.

(** [sell_position] with its sequencing spelled out. *)
Lemma sell_position_unfold reason (b : TradingBot W) :
  sell_position reason b =
  if dict_is_empty (position b) then b
  else
    let a := dict_get (position b) "amount" PNone in
    if negb (truthy a) then b
    else
      match gw_create_market_sell_order (symbol b) a (env b) with
      | (Raise ex, e1) => sell_failed ex e1 b
      | (Ok order, e1) =>
          match exit_price_of (symbol b) order e1 with
          | (Raise ex, e2) => sell_failed ex e2 b
          | (Ok x, e2) =>
              match trade_details (symbol b) (position b) (budget b) x a
                                  (PStamp (now (world e2))) with
              | Raise ex => sell_failed ex e2 b
              | Ok d =>
                  mk_bot (symbol b) (budget b) ∅ (strategy b)
                    (send_message
                       (MsgSold reason (symbol b) (profit_krw d)
                                (profit_percent d))
                       (log_trade d e2))
              end
          end
      end.
Proof.
  unfold sell_position, try_except, sell_body, sell_failed, notify.
  destruct (dict_is_empty (position b)); [reflexivity|].
  cbv zeta. destruct (negb _); [reflexivity|].
  unfold mbind, M_bind, gets, lift_env, lift, do_env, assign_position,
    timestamp_now.
  cbn.
  destruct (gw_create_market_sell_order _ _ _) as [[order|ex] e1];
    [|reflexivity].
  cbn. destruct (exit_price_of _ _ _) as [[x|ex] e2]; [|reflexivity].
  cbn. destruct (trade_details _ _ _ _ _ _) as [d|ex]; reflexivity.
Qed.

Lemma sell_position_flat reason (b : TradingBot W) :
  position b = ∅ -> sell_position reason b = b.
Proof.
  intros Hflat. unfold sell_position.
  apply dict_is_empty_true in Hflat. rewrite Hflat. reflexivity.
Qed.

Lemma sell_position_no_quantity reason (b : TradingBot W) :
  truthy (dict_get (position b) "amount" PNone) = false ->
  sell_position reason b = b.
Proof.
  intros Hq. unfold sell_position. rewrite Hq.
  destruct (dict_is_empty (position b)); reflexivity.
Qed.

Lemma buy_position_held (b : TradingBot W) :
  position b ≠ ∅ -> buy_position b = b.
Proof.
  intros Hheld. unfold buy_position.
  apply dict_is_empty_false in Hheld. rewrite Hheld. reflexivity.
Qed.

(** The row recorded for a Position with numeric entry price and quantity
    under a budget that is not zero. *)
Lemma trade_details_numbers sym (pos : pydict) money e q x entered exited :
  pos !! "entry_price" = Some (PNum e) ->
  pos !! "timestamp" = Some entered ->
  ~ (money == 0)%Q ->
  trade_details sym pos money (PNum x) (PNum q) exited
  = Ok (mk_trade entered exited sym (PNum e) (PNum x) (PNum q)
          (py_round2 ((x - e) * q))
          (py_round2 ((x - e) * q / money * 100))).
Proof.
  intros He Ht Hm. unfold trade_details, dict_index, py_div.
  rewrite He, Ht. cbn.
  destruct (Qeq_bool money 0) eqn:Hz; [|reflexivity].
  apply Qeq_bool_iff in Hz. contradiction.
Qed.

(** A sale that goes through: the order is accepted and an exit price is
    found.  The trace gains the recorded row and then the notification;
    the Position is empty afterwards. *)
Lemma sell_position_filled reason (b : TradingBot W) q e entered order w1 x e2 :
  position b !! "amount" = Some (PNum q) -> ~ (q == 0)%Q ->
  position b !! "entry_price" = Some (PNum e) ->
  position b !! "timestamp" = Some entered ->
  ~ (budget b == 0)%Q ->
  create_market_sell_order (symbol b) (PNum q) (world (env b)) = (Ok order, w1) ->
  exit_price_of (symbol b) order
    (mk_env w1 (Gateway (CreateMarketSellOrder (symbol b) (PNum q)) true
                  :: trace (env b)))
  = (Ok (PNum x), e2) ->
  let d := mk_trade entered (PStamp (now (world e2))) (symbol b)
                    (PNum e) (PNum x) (PNum q)
                    (py_round2 ((x - e) * q))
                    (py_round2 ((x - e) * q / budget b * 100)) in
  sell_position reason b
  = mk_bot (symbol b) (budget b) ∅ (strategy b)
      (mk_env (world e2)
         (Notify (MsgSold reason (symbol b) (profit_krw d) (profit_percent d))
            :: LogTrade d :: trace e2)).
Proof.
  intros Hq Hq0 He Ht Hm Ho Hx d. rewrite sell_position_unfold.
  assert (Hne : dict_is_empty (position b) = false).
  { apply dict_is_empty_false. intros Hflat. rewrite Hflat in Hq.
    rewrite lookup_empty in Hq. discriminate. }
  rewrite Hne. cbv zeta. rewrite (dict_get_some _ _ _ _ Hq).
  apply truthy_num in Hq0. rewrite Hq0. cbn [negb].
  unfold gw_create_market_sell_order, gateway. rewrite Ho. cbn [is_ok].
  rewrite Hx. rewrite (trade_details_numbers _ _ _ e q x entered _ He Ht Hm).
  reflexivity.
Qed.

(** A sale whose order is refused: the Position and every other field of
    the bot stay as they were; the trace gains the failed call and the
    failure notification. *)
Lemma sell_position_refused reason (b : TradingBot W) a ex w1 :
  position b ≠ ∅ ->
  dict_get (position b) "amount" PNone = a -> truthy a = true ->
  create_market_sell_order (symbol b) a (world (env b)) = (Raise ex, w1) ->
  sell_position reason b
  = set_env
      (mk_env w1
         (Notify (MsgSellFailed ex)
            :: Gateway (CreateMarketSellOrder (symbol b) a) false
            :: trace (env b))) b.
Proof.
  intros Hheld Ha Ht Ho. rewrite sell_position_unfold.
  apply dict_is_empty_false in Hheld. rewrite Hheld. cbv zeta.
  rewrite Ha, Ht. cbn [negb].
  unfold gw_create_market_sell_order, gateway. rewrite Ho. reflexivity.
Qed.

(** [exit_price_of] asks the exchange for at most one quote. *)
Lemma exit_price_of_trace sym order (e : Env W) :
  trace (snd (exit_price_of sym order e)) = trace e
  \/ exists ok,
      trace (snd (exit_price_of sym order e))
      = Gateway (FetchTicker sym) ok :: trace e.
Proof.
  unfold exit_price_of, gw_fetch_ticker, gateway.
  destruct (truthy _); [left; reflexivity|].
  destruct (fetch_ticker sym (world e)) as [[tk|ex] w1]; right; eexists;
    reflexivity.
Qed.

(** What [sell_position] can do: nothing; report a failure and keep the
    Position, with no row recorded; or record one row, notify, and only
    then clear the Position. *)
Lemma sell_position_outcome reason (b : TradingBot W) :
  let b' := sell_position reason b in
  symbol b' = symbol b /\ budget b' = budget b /\ strategy b' = strategy b
  /\ (b' = b
      \/ (position b' = position b
          /\ records (trace (env b')) = records (trace (env b))
          /\ exists ex older,
              trace (env b') = Notify (MsgSellFailed ex) :: older)
      \/ (position b ≠ ∅ /\ position b' = ∅
          /\ exists d older,
              trace (env b')
              = Notify (MsgSold reason (symbol b) (profit_krw d)
                                (profit_percent d))
                  :: LogTrade d :: older
              /\ records older = records (trace (env b)))).
Proof.
  cbv zeta. rewrite sell_position_unfold.
  destruct (dict_is_empty (position b)) eqn:Hempty; [tauto|].
  apply dict_is_empty_false in Hempty.
  cbv zeta. destruct (negb _); [tauto|].
  unfold gw_create_market_sell_order, gateway.
  destruct (create_market_sell_order _ _ _) as [[order|ex] w1].
  - match goal with
    | |- context [exit_price_of ?s ?o ?e] =>
        pose proof (exit_price_of_trace s o e) as Hquote;
        destruct (exit_price_of s o e) as [[x|ex] e2]
    end.
    + destruct (trade_details _ _ _ _ _ _) as [d|ex].
      * repeat split; try reflexivity. right. right.
        split; [exact Hempty|]. split; [reflexivity|].
        exists d, (trace e2). split; [reflexivity|].
        cbn in Hquote. destruct Hquote as [-> | [ok ->]]; reflexivity.
      * repeat split; try reflexivity. right. left.
        split; [reflexivity|]. split; [|eexists _, _; reflexivity].
        cbn in *. destruct Hquote as [-> | [ok ->]]; reflexivity.
    + repeat split; try reflexivity. right. left.
      split; [reflexivity|]. split; [|eexists _, _; reflexivity].
      cbn in *. destruct Hquote as [-> | [ok ->]]; reflexivity.
  - repeat split; try reflexivity. right. left.
    split; [reflexivity|]. split; [reflexivity|].
    eexists _, _; reflexivity.
Qed.

(** [buy_position] with its sequencing spelled out. *)
Lemma buy_position_unfold (b : TradingBot W) :
  buy_position b =
  if negb (dict_is_empty (position b)) then b
  else
    match gw_fetch_ticker (symbol b) (env b) with
    | (Raise ex, e1) => set_env (send_message (MsgBuyFailed ex) e1) b
    | (Ok ticker, e1) =>
        match
          current_price ← dict_index ticker "last";
          qty ← py_div (PNum (budget b * (9995 # 10000))) current_price;
          Ok (current_price, qty)
        with
        | Raise ex => set_env (send_message (MsgBuyFailed ex) e1) b
        | Ok (current_price, qty) =>
            match gw_create_market_buy_order (symbol b) qty e1 with
            | (Raise ex, e2) => set_env (send_message (MsgBuyFailed ex) e2) b
            | (Ok order, e2) =>
                let quoted := py_or (dict_get order "average" PNone)
                                    (dict_get order "price" PNone) in
                let entry := if truthy quoted then quoted else current_price in
                let pos :=
                  <["entry_price" := entry]>
                    (<["amount" := dict_get order "filled" qty]>
                       (<["timestamp" := PStamp (now (world e2))]> ∅)) in
                match
                  py_format_f entry;;
                  held ← dict_index pos "amount";
                  py_format_f held;;
                  Ok held
                with
                | Raise ex =>
                    mk_bot (symbol b) (budget b) pos (strategy b)
                           (send_message (MsgBuyFailed ex) e2)
                | Ok held =>
                    mk_bot (symbol b) (budget b) pos (strategy b)
                           (send_message (MsgBought (symbol b) entry held) e2)
                end
            end
        end
    end.
Proof.
  unfold buy_position, try_except, buy_body, notify.
  destruct (negb _); [reflexivity|].
  unfold mbind, M_bind, gets, lift_env, lift, do_env, assign_position,
    timestamp_now.
  cbn.
  destruct (gw_fetch_ticker _ _) as [[ticker|ex] e1]; [|reflexivity].
  cbn. destruct (dict_index ticker "last") as [current_price|ex];
    [|reflexivity].
  cbn. destruct (py_div _ _) as [qty|ex]; [|reflexivity].
  cbn. destruct (gw_create_market_buy_order _ _ _) as [[order|ex] e2];
    [|reflexivity].
  cbn. destruct (py_format_f _) as [[]|ex]; [|reflexivity].
  cbn. destruct (dict_index _ "amount") as [held|ex]; [|reflexivity].
  cbn. destruct (py_format_f held) as [[]|ex]; reflexivity.
Qed.

Lemma open_fills_le_max tr : (open_fills tr <= max_open_fills tr)%nat.
Proof. destruct tr; [cbn; lia | cbn [max_open_fills]; lia]. Qed.

Lemma open_positions_flat (b : TradingBot W) :
  position b = ∅ -> open_positions b = 0%nat.
Proof.
  intros Hflat. unfold open_positions.
  apply dict_is_empty_true in Hflat. rewrite Hflat. reflexivity.
Qed.

Lemma open_positions_held (b : TradingBot W) :
  position b ≠ ∅ -> open_positions b = 1%nat.
Proof.
  intros Hheld. unfold open_positions.
  apply dict_is_empty_false in Hheld. rewrite Hheld. reflexivity.
Qed.

Lemma open_positions_le_1 (b : TradingBot W) : (open_positions b <= 1)%nat.
Proof. unfold open_positions. destruct (dict_is_empty _); lia. Qed.

Lemma position_of_not_empty (entry qty stamp : pyval) :
  (<["entry_price" := entry]>
     (<["amount" := qty]> (<["timestamp" := stamp]> ∅)) : pydict) ≠ ∅.
Proof. apply insert_non_empty. Qed.

(** Selling keeps the bot and the exchange in agreement. *)
Lemma consistent_sell reason (b : TradingBot W) :
  consistent b -> consistent (sell_position reason b).
Proof.
  intros [Hmax Hopen]. pose proof (open_fills_le_max (trace (env b))) as Hle.
  rewrite sell_position_unfold.
  destruct (dict_is_empty (position b)) eqn:Hempty; [split; assumption|].
  cbv zeta. destruct (negb _); [split; assumption|].
  unfold gw_create_market_sell_order, gateway.
  destruct (create_market_sell_order _ _ _) as [[order|ex] w1].
  - unfold exit_price_of, gw_fetch_ticker, gateway. cbv zeta.
    destruct (truthy (py_or _ _));
      [|destruct (fetch_ticker _ _) as [[tk|ex] w2];
        [destruct (dict_index tk "last") as [x|ex]|]];
      try destruct (trade_details _ _ _ _ _ _) as [d|ex];
      unfold consistent, sell_failed, open_positions in *; cbn in *;
      try rewrite Hempty; split; try lia;
      destruct (dict_is_empty ∅); lia.
  - unfold consistent, sell_failed, open_positions in *. cbn in *.
    rewrite Hempty in *. split; lia.
Qed.

(** Buying keeps the bot and the exchange in agreement: an order is only
    placed from a flat bot, and an accepted order always leaves a
    Position behind. *)
Lemma consistent_buy (b : TradingBot W) :
  consistent b -> consistent (buy_position b).
Proof.
  intros [Hmax Hopen]. pose proof (open_fills_le_max (trace (env b))) as Hle.
  rewrite buy_position_unfold.
  destruct (dict_is_empty (position b)) eqn:Hempty;
    [|split; assumption].
  cbn [negb].
  assert (Hzero : open_fills (trace (env b)) = 0%nat)
    by (unfold open_positions in Hopen; rewrite Hempty in Hopen; lia).
  unfold gw_fetch_ticker, gw_create_market_buy_order, gateway.
  destruct (fetch_ticker _ _) as [[ticker|ex] w1].
  - destruct (dict_index ticker "last") as [current_price|ex];
      [cbn; destruct (py_div _ _) as [qty|ex]; cbn|cbn].
    + destruct (create_market_buy_order _ _ _) as [[order|ex] w2].
      * cbv zeta.
        match goal with
        | |- context [mk_bot _ _ ?p _ _] =>
            remember p as pos eqn:Hpos;
            assert (Hheld : dict_is_empty pos = false)
              by (subst pos; apply dict_is_empty_false, position_of_not_empty);
            clear Hpos
        end.
        destruct (py_format_f _ ≫= _);
          unfold consistent, open_positions; cbn; rewrite Hheld;
          split; lia.
      * unfold consistent, open_positions in *. cbn in *.
        rewrite Hempty in *. split; lia.
    + unfold consistent, open_positions in *. cbn in *.
      rewrite Hempty in *. split; lia.
    + unfold consistent, open_positions in *. cbn in *.
      rewrite Hempty in *. split; lia.
  - unfold consistent, open_positions in *. cbn in *.
    rewrite Hempty in *. split; lia.
Qed.

End Orders.

(** ** The control loop *)

Section Loop.
Context {W : Type} `{World W}.

Lemma no_order_refl (e : Env W) : no_order e e.
Proof. split; reflexivity. Qed.

Lemma no_order_event ev (w : W) (e : Env W) :
  (forall tr, open_fills (ev :: tr) = open_fills tr) ->
  no_order e (mk_env w (ev :: trace e)).
Proof.
  intros Hev. split; cbn [trace max_open_fills]; rewrite Hev; [reflexivity|].
  pose proof (open_fills_le_max (trace e)). lia.
Qed.

Lemma no_order_fetch_ticker sym (e : Env W) :
  no_order e (snd (gw_fetch_ticker sym e)).
Proof.
  unfold gw_fetch_ticker, gateway.
  destruct (fetch_ticker _ _) as [r w]. apply no_order_event. reflexivity.
Qed.

Lemma no_order_fetch_ohlcv sym tf limit (e : Env W) :
  no_order e (snd (gw_fetch_ohlcv sym tf limit e)).
Proof.
  unfold gw_fetch_ohlcv, gateway.
  destruct (fetch_ohlcv _ _ _ _) as [r w]. apply no_order_event. reflexivity.
Qed.

Lemma no_order_breakout_signal sym s (e : Env W) :
  no_order e (snd (VolatilityBreakoutStrategy.get_signal sym s e)).
Proof.
  unfold VolatilityBreakoutStrategy.get_signal.
  destruct (VolatilityBreakoutStrategy.bought s); [apply no_order_refl|].
  destruct (VolatilityBreakoutStrategy.target_price s);
    [|apply no_order_refl].
  pose proof (no_order_fetch_ticker sym e) as Hq.
  destruct (gw_fetch_ticker sym e) as [[tk|ex] e1]; [|exact Hq].
  destruct (dict_index tk "last") as [p|ex]; [|exact Hq].
  destruct (py_gt _ _) as [[|]|ex]; exact Hq.
Qed.

Lemma no_order_prepare_data sym s (e : Env W) :
  no_order e (snd (VolatilityBreakoutStrategy.prepare_data sym s e)).
Proof.
  unfold VolatilityBreakoutStrategy.prepare_data.
  pose proof (no_order_fetch_ohlcv sym "1d" 2 e) as Hq.
  destruct (gw_fetch_ohlcv sym "1d" 2 e) as [[ohlcv|ex] e1]; [|exact Hq].
  destruct (length ohlcv <? 2)%nat; [exact Hq|].
  destruct (ohlcv !! _); [|exact Hq].
  destruct (ohlcv !! _); exact Hq.
Qed.

Lemma no_order_rsi_signal sym s (e : Env W) :
  no_order e (snd (RSIStrategy.get_signal sym s e)).
Proof.
  unfold RSIStrategy.get_signal.
  pose proof (no_order_fetch_ohlcv sym RSIStrategy.timeframe 100 e) as Hq.
  destruct (gw_fetch_ohlcv _ _ _ e) as [[ohlcv|ex] e1]; [|exact Hq].
  destruct (ta_rsi _ _) as [rsi|]; [|exact Hq].
  destruct (last rsi); exact Hq.
Qed.

Lemma consistent_no_order (b b' : TradingBot W) :
  position b' = position b -> no_order (env b) (env b') ->
  consistent b -> consistent b'.
Proof.
  intros Hpos [Hopen Hmax] [Hm Ho]. unfold consistent, open_positions in *.
  rewrite Hpos, Hopen, Hmax. split; assumption.
Qed.

Lemma get_signal_position (b : TradingBot W) :
  position (snd (strategy_get_signal b)) = position b.
Proof.
  unfold strategy_get_signal. destruct (strategy b) as [s|s].
  - destruct (VolatilityBreakoutStrategy.get_signal _ _ _) as [[sig s1] e1].
    reflexivity.
  - destruct (RSIStrategy.get_signal _ _ _) as [sig e1]. reflexivity.
Qed.

Lemma consistent_get_signal (b : TradingBot W) :
  consistent b -> consistent (snd (strategy_get_signal b)).
Proof.
  apply consistent_no_order; [apply get_signal_position|].
  unfold strategy_get_signal. destruct (strategy b) as [s|s].
  - pose proof (no_order_breakout_signal (symbol b) s (env b)) as Hq.
    destruct (VolatilityBreakoutStrategy.get_signal _ _ _) as [[sig s1] e1].
    exact Hq.
  - pose proof (no_order_rsi_signal (symbol b) s (env b)) as Hq.
    destruct (RSIStrategy.get_signal _ _ _) as [sig e1]. exact Hq.
Qed.

Lemma prepare_data_position (b : TradingBot W) :
  position (strategy_prepare_data b) = position b.
Proof.
  unfold strategy_prepare_data. destruct (strategy b) as [s|s];
    [|reflexivity].
  destruct (VolatilityBreakoutStrategy.prepare_data _ _ _) as [s1 e1].
  reflexivity.
Qed.

Lemma consistent_prepare_data (b : TradingBot W) :
  consistent b -> consistent (strategy_prepare_data b).
Proof.
  apply consistent_no_order; [apply prepare_data_position|].
  unfold strategy_prepare_data. destruct (strategy b) as [s|s];
    [|apply no_order_refl].
  pose proof (no_order_prepare_data (symbol b) s (env b)) as Hq.
  destruct (VolatilityBreakoutStrategy.prepare_data _ _ _) as [s1 e1].
  exact Hq.
Qed.

Lemma consistent_reset (b : TradingBot W) :
  consistent b -> consistent (strategy_reset b).
Proof.
  apply consistent_no_order; unfold strategy_reset;
    destruct (strategy b); try reflexivity; apply no_order_refl.
Qed.

Lemma consistent_sleep secs (b : TradingBot W) :
  consistent b -> consistent (bot_sleep secs b).
Proof.
  apply consistent_no_order; [reflexivity|].
  unfold bot_sleep, py_sleep. cbn [env set_env].
  apply no_order_event. reflexivity.
Qed.

Lemma consistent_tick (b : TradingBot W) :
  consistent b -> consistent (run_tick b).
Proof.
  intros Hb. unfold run_tick.
  destruct (in_reset_window _).
  - unfold reset_pass. apply consistent_sleep, consistent_prepare_data,
      consistent_reset, consistent_sell, Hb.
  - unfold trading_pass.
    pose proof (consistent_get_signal b Hb) as Hs.
    destruct (strategy_get_signal b) as [sig b1]. cbn [snd] in Hs.
    apply consistent_sleep.
    destruct sig; [destruct (dict_is_empty _)|destruct (negb _)|];
      auto using consistent_buy, consistent_sell.
Qed.

Lemma consistent_loop n (b : TradingBot W) :
  consistent b -> consistent (run_loop n b).
Proof.
  revert b. induction n as [|n IH]; intros b Hb; [exact Hb|].
  cbn [run_loop]. apply IH, consistent_tick, Hb.
Qed.

Lemma consistent_new_bot sym money name (w : W) (b : TradingBot W) :
  new_bot sym money name w = Ok b -> consistent b.
Proof.
  unfold new_bot. destruct (create_strategy_instance name); [|discriminate].
  intros [= <-]. split; cbn; [lia|]. unfold open_positions. lia.
Qed.

End Loop.

Section AtMostOne.
Context {W : Type} `{World W}.

(** C1 (at most one Position).  From any state in which the bot and the
    exchange agree (a freshly constructed bot is one), after any number
    of passes of [run]: the bot holds 0 or 1 Position; at no
    moment of the run did the exchange hold two accepted buys without an
    accepted sell in between; and the exchange holds no fill the bot does
    not know of.  In every state, [buy_position] with a Position present
    returns the bot unchanged (same world, same trace: no gateway call),
    and a pass whose signal is BUY while a Position is present does
    nothing but sleep. *)
Theorem at_most_one_position (b : TradingBot W) :
  consistent b ->
  (forall n,
      (open_positions (run n b) <= 1)%nat
      /\ (max_open_fills (trace (env (run n b))) <= 1)%nat
      /\ (open_fills (trace (env (run n b))) <= open_positions (run n b))%nat)
  /\ (forall b1 : TradingBot W, position b1 ≠ ∅ -> buy_position b1 = b1)
  /\ (forall b1 : TradingBot W,
         position b1 ≠ ∅ ->
         in_reset_window (now (world (env b1))) = false ->
         fst (strategy_get_signal b1) = BUY ->
         run_tick b1
         = bot_sleep (sleep_duration (strategy (snd (strategy_get_signal b1))))
                     (snd (strategy_get_signal b1)))
  /\ (forall sym money name w (b0 : TradingBot W),
         new_bot sym money name w = Ok b0 -> consistent b0).
Proof.
  intros Hb. split; [|split; [|split]]; [| | |apply consistent_new_bot].
  - intros n.
    assert (Hrun : consistent (run n b))
      by (apply consistent_loop, consistent_prepare_data, Hb).
    destruct Hrun as [Hmax Hopen].
    split; [apply open_positions_le_1|]. split; assumption.
  - intros b1. apply buy_position_held.
  - intros b1 Hheld Hwin Hsig. unfold run_tick, trading_pass. rewrite Hwin.
    pose proof (get_signal_position b1) as Hpos.
    destruct (strategy_get_signal b1) as [sig b2]. cbn [fst snd] in *.
    subst sig. rewrite <- Hpos in Hheld.
    apply dict_is_empty_false in Hheld. rewrite Hheld. reflexivity.
Qed.

End AtMostOne.

Lemma at_most_one_position_witness :
  (open_positions (run 3 fresh_bot) <= 1)%nat
  /\ (max_open_fills (trace (env (run 3 fresh_bot))) <= 1)%nat
  /\ (open_fills (trace (env (run 3 fresh_bot)))
      <= open_positions (run 3 fresh_bot))%nat.
Proof.
  apply (proj1 (@at_most_one_position Script ScriptWorld fresh_bot
                  (conj (le_S _ _ (le_n 0)) (le_n 0)))).
Defined.

Section Guards.
Context {W : Type} `{World W}.

(** C8 (no-op guards).  [sell_position] without a Position and
    [buy_position] with a Position return the bot exactly as it was: the
    same world (no ticker fetched, no order placed), the same trace (no
    row recorded, nothing notified), the same Position and strategy. *)
Theorem no_op_guards (b : TradingBot W) reason :
  (position b = ∅ -> sell_position reason b = b)
  /\ (position b ≠ ∅ -> buy_position b = b).
Proof.
  split; [apply sell_position_flat | apply buy_position_held].
Qed.

Lemma run_tick_stuck (b : TradingBot W) :
  position b ≠ ∅ ->
  truthy (dict_get (position b) "amount" PNone) = false ->
  position (run_tick b) = position b.
Proof.
  intros Hheld Hq. unfold run_tick. destruct (in_reset_window _).
  - unfold reset_pass, bot_sleep. cbn [position set_env].
    rewrite prepare_data_position.
    rewrite (sell_position_no_quantity _ _ Hq).
    unfold strategy_reset. destruct (strategy b); reflexivity.
  - unfold trading_pass. pose proof (get_signal_position b) as Hpos.
    destruct (strategy_get_signal b) as [sig b1]. cbn [snd] in Hpos.
    unfold bot_sleep. cbn [position set_env].
    destruct sig; [| |exact Hpos].
    + rewrite <- Hpos in Hheld. apply dict_is_empty_false in Hheld.
      rewrite Hheld. exact Hpos.
    + destruct (negb _); [|exact Hpos].
      rewrite sell_position_no_quantity; [exact Hpos|].
      rewrite Hpos. exact Hq.
Qed.

Lemma buy_position_amount (b : TradingBot W) tk w1 p order w2 v :
  position b = ∅ ->
  fetch_ticker (symbol b) (world (env b)) = (Ok tk, w1) ->
  tk !! "last" = Some (PNum p) -> ~ (p == 0)%Q ->
  create_market_buy_order (symbol b)
    (PNum (budget b * (9995 # 10000) / p)) w1 = (Ok order, w2) ->
  order !! "filled" = Some v ->
  position (buy_position b) !! "amount" = Some v.
Proof.
  intros Hflat Hf Hl Hp Ho Hv. rewrite buy_position_unfold.
  apply dict_is_empty_true in Hflat. rewrite Hflat. cbn [negb].
  unfold gw_fetch_ticker, gw_create_market_buy_order, gateway.
  rewrite Hf. unfold dict_index at 1. rewrite Hl. cbn. unfold py_div.
  destruct (Qeq_bool p 0) eqn:Hz;
    [apply Qeq_bool_iff in Hz; contradiction|].
  cbn. rewrite Ho. rewrite (dict_get_some _ _ _ _ Hv).
  destruct (py_format_f _ ≫= _); cbn [position];
    rewrite lookup_insert_ne by discriminate; apply lookup_insert_eq.
Qed.

(** C10 (stuck Position).  When the quantity recorded in the Position is
    absent, [None] or zero, every [sell_position] returns the bot exactly
    as it was: no order placed, no row recorded, the Position kept.  If
    the Position is not empty it is still the same after any number of
    passes of the control loop.  Such a Position arises from
    [buy_position] itself: the quantity it stores is whatever the fill
    reports under 'filled', [None] and 0 included. *)
Theorem stuck_position (b : TradingBot W) :
  (position b !! "amount" = None
   \/ position b !! "amount" = Some PNone
   \/ exists q, position b !! "amount" = Some (PNum q) /\ (q == 0)%Q) ->
  (forall reason, sell_position reason b = b)
  /\ (position b ≠ ∅ -> forall n, position (run_loop n b) = position b)
  /\ (forall (b0 : TradingBot W) tk w1 p order w2 v,
         position b0 = ∅ ->
         fetch_ticker (symbol b0) (world (env b0)) = (Ok tk, w1) ->
         tk !! "last" = Some (PNum p) -> ~ (p == 0)%Q ->
         create_market_buy_order (symbol b0)
           (PNum (budget b0 * (9995 # 10000) / p)) w1 = (Ok order, w2) ->
         order !! "filled" = Some v ->
         position (buy_position b0) !! "amount" = Some v).
Proof.
  intros Hq.
  assert (Hfalse : truthy (dict_get (position b) "amount" PNone) = false).
  { destruct Hq as [Hq | [Hq | (q & Hq & Hz)]].
    - rewrite (dict_get_none _ _ _ Hq). reflexivity.
    - rewrite (dict_get_some _ _ _ _ Hq). reflexivity.
    - rewrite (dict_get_some _ _ _ _ Hq). unfold truthy.
      apply Qeq_bool_iff in Hz. rewrite Hz. reflexivity. }
  split; [|split].
  - intros reason. apply sell_position_no_quantity, Hfalse.
  - intros Hheld n. clear Hq. revert b Hfalse Hheld.
    induction n as [|n IH]; intros b Hfalse Hheld; [reflexivity|].
    cbn [run_loop].
    pose proof (run_tick_stuck b Hheld Hfalse) as Htick.
    rewrite IH; rewrite Htick; try reflexivity; assumption.
  - intros b0 tk w1 p order w2 v. apply buy_position_amount.
Qed.

End Guards.

Lemma no_op_guards_witness :
  sell_position REASON_STRATEGY fresh_bot = fresh_bot
  /\ buy_position (holding (quiet noon)) = holding (quiet noon).
Proof.
  split.
  - apply (proj1 (@no_op_guards Script ScriptWorld fresh_bot REASON_STRATEGY)).
    reflexivity.
  - apply (proj2 (@no_op_guards Script ScriptWorld (holding (quiet noon))
                    REASON_STRATEGY)).
    apply position_of_not_empty.
Defined.

(** The fill reports [filled: None]: the Position is written with no
    quantity, and no later sale touches it. *)
Lemma stuck_position_witness :
  position (buy_position (buying PNone)) !! "amount" = Some PNone
  /\ sell_position REASON_SCHEDULED (buy_position (buying PNone))
     = buy_position (buying PNone)
  /\ position (run_loop 5 (buy_position (buying PNone)))
     = position (buy_position (buying PNone)).
Proof.
  assert (Hnone : position (buy_position (buying PNone)) !! "amount"
                  = Some PNone) by (vm_compute; reflexivity).
  destruct (@stuck_position Script ScriptWorld (buy_position (buying PNone))
              (or_intror (or_introl Hnone))) as (Hsell & Hloop & _).
  split; [exact Hnone|]. split; [apply Hsell|].
  apply Hloop. intros Hflat. rewrite Hflat in Hnone. discriminate.
Defined.

Section Selling.
Context {W : Type} `{World W}.

(** C2 (sell ordering), as the code has it.  Every [sell_position] ends
    in one of two ways: the Position is what it was and no row was
    recorded; or there was a Position, it is now empty, and the two
    newest events are the row handed to the recorder and, after it, the
    sale's notification, so that clearing comes last.  When the order is
    accepted and an exit price is found (for a Position with numeric
    entry price and quantity, under a non-zero budget) the second case
    holds and exactly one row is added.  When the order is refused, every
    field of the bot but the world and the trace is unchanged, the trace
    gains the failed call and the failure notification, and
    [sell_position], a total function, returns normally. *)
Theorem sell_ordering reason (b : TradingBot W) :
  ((position (sell_position reason b) = position b
    /\ records (trace (env (sell_position reason b)))
       = records (trace (env b)))
   \/ (position b ≠ ∅ /\ position (sell_position reason b) = ∅
       /\ exists d older,
           trace (env (sell_position reason b))
           = Notify (MsgSold reason (symbol b) (profit_krw d)
                             (profit_percent d))
               :: LogTrade d :: older
           /\ records older = records (trace (env b))))
  /\ (forall q e entered order w1 x e2,
         position b !! "amount" = Some (PNum q) -> ~ (q == 0)%Q ->
         position b !! "entry_price" = Some (PNum e) ->
         position b !! "timestamp" = Some entered ->
         ~ (budget b == 0)%Q ->
         create_market_sell_order (symbol b) (PNum q) (world (env b))
         = (Ok order, w1) ->
         exit_price_of (symbol b) order
           (mk_env w1
              (Gateway (CreateMarketSellOrder (symbol b) (PNum q)) true
                 :: trace (env b)))
         = (Ok (PNum x), e2) ->
         position (sell_position reason b) = ∅
         /\ exists d,
             trace (env (sell_position reason b))
             = Notify (MsgSold reason (symbol b) (profit_krw d)
                               (profit_percent d))
                 :: LogTrade d :: trace e2
             /\ records (trace (env (sell_position reason b)))
                = d :: records (trace (env b)))
  /\ (forall a ex w1,
         position b ≠ ∅ ->
         dict_get (position b) "amount" PNone = a -> truthy a = true ->
         create_market_sell_order (symbol b) a (world (env b))
         = (Raise ex, w1) ->
         sell_position reason b
         = set_env
             (mk_env w1
                (Notify (MsgSellFailed ex)
                   :: Gateway (CreateMarketSellOrder (symbol b) a) false
                   :: trace (env b))) b).
Proof.
  split; [|split].
  - destruct (sell_position_outcome reason b)
      as (_ & _ & _ & [Hsame | [(Hpos & Hrec & _) | Hsold]]).
    + left. cbv zeta in Hsame. rewrite Hsame. split; reflexivity.
    + left. split; assumption.
    + right. exact Hsold.
  - intros q e entered order w1 x e2 Hq Hq0 He Ht Hm Ho Hx.
    rewrite (sell_position_filled reason b q e entered order w1 x e2
               Hq Hq0 He Ht Hm Ho Hx).
    split; [reflexivity|]. eexists. split; [reflexivity|].
    cbn [env trace records omap list_omap mbind option_bind]. f_equal.
    pose proof (exit_price_of_trace (symbol b) order
                  (mk_env w1 (Gateway (CreateMarketSellOrder (symbol b)
                                         (PNum q)) true :: trace (env b))))
      as Hquote.
    rewrite Hx in Hquote. cbn [snd trace] in Hquote.
    destruct Hquote as [-> | [ok ->]]; reflexivity.
  - intros a ex w1. apply sell_position_refused.
Qed.

End Selling.

Lemma sell_ordering_witness :
  position (sell_position REASON_STRATEGY (selling (PNum 110) unscripted)) = ∅
  /\ length (records (trace (env (sell_position REASON_STRATEGY
                                    (selling (PNum 110) unscripted)))))
     = 1%nat.
Proof.
  destruct (@sell_ordering Script ScriptWorld REASON_STRATEGY
              (selling (PNum 110) unscripted)) as (_ & Hfilled & _).
  destruct (Hfilled 2%Q 100%Q (PStamp noon) (fill (PNum 110) (PNum 2))
              (snd (script_sell (world (env (selling (PNum 110) unscripted)))))
              110%Q
              (mk_env
                 (snd (script_sell
                         (world (env (selling (PNum 110) unscripted)))))
                 [Gateway (CreateMarketSellOrder TARGET_SYMBOL (PNum 2)) true])
              eq_refl ltac:(discriminate) eq_refl eq_refl
              ltac:(discriminate) eq_refl eq_refl)
    as [Hpos (d & _ & Hrec)].
  split; [exact Hpos|]. rewrite Hrec. reflexivity.
Defined.

(** C2 as stated fails: the order is accepted, the fill carries no price,
    and the fallback quote times out.  No row is recorded although the
    sell order succeeded; the Position is kept. *)
Lemma sell_without_record_counterexample :
  history (sell_position REASON_STRATEGY (selling PNone (Raise timeout)))
  = [Gateway (CreateMarketSellOrder TARGET_SYMBOL (PNum 2)) true;
     Gateway (FetchTicker TARGET_SYMBOL) false;
     Notify (MsgSellFailed timeout)]
  /\ records (trace (env (sell_position REASON_STRATEGY
                            (selling PNone (Raise timeout))))) = []
  /\ position (sell_position REASON_STRATEGY (selling PNone (Raise timeout)))
     = position (selling PNone (Raise timeout)).
Proof. repeat split; vm_compute; reflexivity. Qed.

Section ProfitAndLoss.
Context {W : Type} `{World W}.


End ProfitAndLoss.



Section DailyReset.
Context {W : Type} `{World W}.

Lemma prepare_data_trace sym s (e : Env W) :
  exists ok,
    trace (snd (VolatilityBreakoutStrategy.prepare_data sym s e))
    = Gateway (FetchOHLCV sym "1d" 2) ok :: trace e.
Proof.
  unfold VolatilityBreakoutStrategy.prepare_data, gw_fetch_ohlcv, gateway.
  destruct (fetch_ohlcv _ _ _ _) as [[ohlcv|ex] w1];
    [|eexists; reflexivity].
  destruct (length ohlcv <? 2)%nat; [eexists; reflexivity|].
  destruct (ohlcv !! _); [|eexists; reflexivity].
  destruct (ohlcv !! _); eexists; reflexivity.
Qed.


End DailyReset.


Section Startup.
Context {W : Type} `{World W}.

(** C9 (startup failure), as the code has it.  When [load_markets]
    fails, the failure is notified and the exchange's [close] is called.
    If that [close] returns, the shutdown is notified, [initialize]
    returns False and [main] returns; if that [close] raises, its
    exception leaves [initialize] and [main].  In both cases the outcome
    and the trace are the same for every number of passes the loop would
    be allowed: the loop is never entered.  [initialize] returns True
    when [load_markets] succeeds, and returns False exactly when
    [load_markets] fails and the [close] that follows returns. *)
Theorem startup_failure_policy (b : TradingBot W) :
  (forall ex w1 w2,
      load_markets (world (env b)) = (Raise ex, w1) ->
      close_exchange w1 = (Ok tt, w2) ->
      let closed :=
        set_env (mk_env w2 (Notify MsgClosed :: Gateway Close true
                              :: Notify (MsgStartFailed ex)
                              :: Gateway LoadMarkets false
                              :: trace (env b))) b in
      initialize b = (Ok false, closed)
      /\ forall n, main_from n b = (None, closed))
  /\ (forall ex w1 ex2 w2,
         load_markets (world (env b)) = (Raise ex, w1) ->
         close_exchange w1 = (Raise ex2, w2) ->
         let aborted :=
           set_env (mk_env w2 (Gateway Close false
                                 :: Notify (MsgStartFailed ex)
                                 :: Gateway LoadMarkets false
                                 :: trace (env b))) b in
         initialize b = (Raise ex2, aborted)
         /\ forall n, main_from n b = (Some ex2, aborted))
  /\ (forall w1,
         load_markets (world (env b)) = (Ok tt, w1) ->
         fst (initialize b) = Ok true)
  /\ (fst (initialize b) = Ok false
      <-> exists ex w1 w2,
          load_markets (world (env b)) = (Raise ex, w1)
          /\ close_exchange w1 = (Ok tt, w2)).
Proof.
  unfold main_from, initialize, close, lift_env, do_env, notify,
    gw_load_markets, gw_close, gateway, mbind, M_bind, mret, M_ret.
  split; [|split; [|split]].
  - intros ex w1 w2 Hload Hclose. cbv zeta.
    destruct b as [sym money pos strat [w tr]]. cbn in *.
    rewrite Hload. cbn. rewrite Hclose. cbn. split; reflexivity.
  - intros ex w1 ex2 w2 Hload Hclose. cbv zeta.
    destruct b as [sym money pos strat [w tr]]. cbn in *.
    rewrite Hload. cbn. rewrite Hclose. cbn. split; reflexivity.
  - intros w1 Hload. cbn. rewrite Hload. reflexivity.
  - cbn. destruct (load_markets (world (env b))) as [[[]|ex] w1] eqn:Hload.
    + cbn. split; [discriminate|]. intros (ex & w1' & w2 & Hl & _).
      discriminate.
    + cbn. destruct (close_exchange w1) as [[[]|ex2] w2] eqn:Hclose; cbn.
      * split; [|reflexivity]. intros _. exists ex, w1, w2.
        split; [reflexivity|exact Hclose].
      * split; [discriminate|]. intros (ex' & w1' & w2' & Hl & Hc).
        injection Hl as <- <-. rewrite Hclose in Hc. discriminate.
Qed.

End Startup.

Lemma startup_failure_policy_witness :
  fst (initialize (starting (Raise outage) (Ok tt))) = Ok false
  /\ history (snd (main_from 5 (starting (Raise outage) (Ok tt))))
     = [Gateway LoadMarkets false; Notify (MsgStartFailed outage);
        Gateway Close true; Notify MsgClosed].
Proof.
  destruct (@startup_failure_policy Script ScriptWorld
              (starting (Raise outage) (Ok tt))) as (Hclosed & _).
  destruct (Hclosed outage _ _ eq_refl eq_refl) as [Hinit Hmain].
  rewrite Hinit, (Hmain 5%nat). split; reflexivity.
Defined.

(** C9 as stated fails: [load_markets] fails and so does the [close] in
    the handler.  [initialize] does not return False: the exception of
    [close] leaves it, and the shutdown is not notified. *)
Lemma initialize_raises_counterexample :
  fst (load_markets (world (env (starting (Raise outage) (Raise hangup)))))
  = Raise outage
  /\ fst (initialize (starting (Raise outage) (Raise hangup))) = Raise hangup
  /\ fst (initialize (starting (Raise outage) (Raise hangup))) <> Ok false
  /\ history (snd (initialize (starting (Raise outage) (Raise hangup))))
     = [Gateway LoadMarkets false; Notify (MsgStartFailed outage);
        Gateway Close false].
Proof.
  split; [reflexivity|]. split; [reflexivity|].
  split; [discriminate|reflexivity].
Qed.

(** * Further properties of the code *)

(** ** What a pass can emit *)

Arguments emits : simpl never.

Section Emissions.
Context {W : Type} `{World W}.

Lemma emits_refl P (e : Env W) : emits P e e.
Proof. exists []. split; reflexivity. Qed.

Lemma emits_trans P (e1 e2 e3 : Env W) :
  emits P e1 e2 -> emits P e2 e3 -> emits P e1 e3.
Proof.
  intros (n1 & H1 & F1) (n2 & H2 & F2). exists (n2 ++ n1)%list.
  rewrite H2, H1, app_assoc, forallb_app, F1, F2. split; reflexivity.
Qed.

Lemma emits_weaken (P Q : event -> bool) (e1 e2 : Env W) :
  (forall ev, P ev = true -> Q ev = true) -> emits P e1 e2 -> emits Q e1 e2.
Proof.
  intros HPQ (new & Htr & Hall). exists new. split; [exact Htr|].
  rewrite forallb_forall in *. intros ev Hin. apply HPQ, Hall, Hin.
Qed.

Lemma emits_one P ev (w : W) (e : Env W) :
  P ev = true -> emits P e (mk_env w (ev :: trace e)).
Proof. intros HP. exists [ev]. cbn. rewrite HP. split; reflexivity. Qed.

Lemma is_fetch_trading sym ev : is_fetch sym ev = true -> is_trading sym ev = true.
Proof. destruct ev as [[] ok| | |]; cbn; congruence. Qed.

Lemma emits_fetch_ticker sym (e : Env W) :
  emits (is_fetch sym) e (snd (gw_fetch_ticker sym e)).
Proof.
  unfold gw_fetch_ticker, gateway. destruct (fetch_ticker _ _) as [r w].
  apply emits_one. cbn. apply String.eqb_refl.
Qed.

Lemma emits_fetch_ohlcv sym tf limit (e : Env W) :
  emits (is_fetch sym) e (snd (gw_fetch_ohlcv sym tf limit e)).
Proof.
  unfold gw_fetch_ohlcv, gateway. destruct (fetch_ohlcv _ _ _ _) as [r w].
  apply emits_one. cbn. apply String.eqb_refl.
Qed.

Lemma emits_nil P (e : Env W) (w : W) : emits P e (mk_env w (trace e)).
Proof. exists []. split; reflexivity. Qed.

Lemma emits_cons P ev (w : W) tr (e : Env W) :
  P ev = true -> emits P e (mk_env w tr) -> emits P e (mk_env w (ev :: tr)).
Proof.
  intros HP (new & Htr & Hall). exists (ev :: new). cbn in *.
  rewrite Htr, HP, Hall. split; reflexivity.
Qed.

(** Closes a goal [emits P e e'] whose trace is spelled out. *)
Ltac emits_explicit :=
  repeat (apply emits_cons; [cbn; rewrite ?String.eqb_refl; reflexivity|]);
  apply emits_nil.

Lemma emits_sell_position reason (b : TradingBot W) :
  emits (is_trading (symbol b)) (env b) (env (sell_position reason b)).
Proof.
  rewrite sell_position_unfold.
  destruct (dict_is_empty (position b)); [apply emits_refl|].
  cbv zeta. destruct (negb _); [apply emits_refl|].
  unfold gw_create_market_sell_order, gateway.
  destruct (create_market_sell_order _ _ _) as [[order|ex] w1].
  - unfold exit_price_of, gw_fetch_ticker, gateway. cbv zeta.
    destruct (truthy (py_or _ _));
      [|destruct (fetch_ticker _ _) as [[tk|ex] w2];
        [destruct (dict_index tk "last") as [x|ex]|]];
      try destruct (trade_details _ _ _ _ _ _) as [d|ex];
      unfold sell_failed, send_message, log_trade, emit; cbn;
      emits_explicit.
  - unfold sell_failed, send_message, emit. cbn. emits_explicit.
Qed.

Lemma emits_buy_position (b : TradingBot W) :
  emits (is_trading (symbol b)) (env b) (env (buy_position b)).
Proof.
  rewrite buy_position_unfold.
  destruct (negb _); [apply emits_refl|].
  unfold gw_fetch_ticker, gw_create_market_buy_order, gateway.
  destruct (fetch_ticker _ _) as [[ticker|ex] w1];
    [|unfold send_message, emit; cbn; emits_explicit].
  destruct (_ ≫= _) as [[current_price qty]|ex];
    [|unfold send_message, emit; cbn; emits_explicit].
  destruct (create_market_buy_order _ _ _) as [[order|ex] w2];
    [|unfold send_message, emit; cbn; emits_explicit].
  cbv zeta. destruct (_ ≫= _); unfold send_message, emit; cbn;
    emits_explicit.
Qed.

Lemma buy_position_config (b : TradingBot W) :
  symbol (buy_position b) = symbol b
  /\ budget (buy_position b) = budget b
  /\ strategy (buy_position b) = strategy b.
Proof.
  rewrite buy_position_unfold.
  destruct (negb _); [tauto|].
  destruct (gw_fetch_ticker _ _) as [[ticker|ex] e1]; [|tauto].
  destruct (_ ≫= _) as [[current_price qty]|ex]; [|tauto].
  destruct (gw_create_market_buy_order _ _ _) as [[order|ex] e2]; [|tauto].
  cbv zeta. destruct (_ ≫= _); tauto.
Qed.

End Emissions.

Section PassShape.
Context {W : Type} `{World W}.

Lemma emits_breakout_signal sym s (e : Env W) :
  emits (is_fetch sym) e (snd (VolatilityBreakoutStrategy.get_signal sym s e)).
Proof.
  unfold VolatilityBreakoutStrategy.get_signal.
  destruct (VolatilityBreakoutStrategy.bought s); [apply emits_refl|].
  destruct (VolatilityBreakoutStrategy.target_price s);
    [|apply emits_refl].
  pose proof (emits_fetch_ticker sym e) as Hq.
  destruct (gw_fetch_ticker sym e) as [[tk|ex] e1]; [|exact Hq].
  destruct (dict_index tk "last") as [p|ex]; [|exact Hq].
  destruct (py_gt _ _) as [[|]|ex]; exact Hq.
Qed.

Lemma emits_prepare_data sym s (e : Env W) :
  emits (is_fetch sym) e (snd (VolatilityBreakoutStrategy.prepare_data sym s e)).
Proof.
  unfold VolatilityBreakoutStrategy.prepare_data.
  pose proof (emits_fetch_ohlcv sym "1d" 2 e) as Hq.
  destruct (gw_fetch_ohlcv sym "1d" 2 e) as [[ohlcv|ex] e1]; [|exact Hq].
  destruct (length ohlcv <? 2)%nat; [exact Hq|].
  destruct (ohlcv !! _); [|exact Hq].
  destruct (ohlcv !! _); exact Hq.
Qed.

Lemma emits_rsi_signal sym s (e : Env W) :
  emits (is_fetch sym) e (snd (RSIStrategy.get_signal sym s e)).
Proof.
  unfold RSIStrategy.get_signal.
  pose proof (emits_fetch_ohlcv sym RSIStrategy.timeframe 100 e) as Hq.
  destruct (gw_fetch_ohlcv _ _ _ e) as [[ohlcv|ex] e1]; [|exact Hq].
  destruct (ta_rsi _ _) as [rsi|]; [|exact Hq].
  destruct (last rsi); exact Hq.
Qed.

Lemma same_config_refl (b : TradingBot W) : same_config b b.
Proof. repeat split. Qed.

Lemma same_config_trans (b1 b2 b3 : TradingBot W) :
  same_config b1 b2 -> same_config b2 b3 -> same_config b1 b3.
Proof.
  intros (S1 & B1 & P1 & R1) (S2 & B2 & P2 & R2).
  repeat split; congruence.
Qed.

Lemma same_config_strategy (b b' : TradingBot W) :
  symbol b' = symbol b -> budget b' = budget b -> strategy b' = strategy b ->
  same_config b b'.
Proof. intros Hs Hb Hst. unfold same_config. rewrite Hs, Hb, Hst. tauto. Qed.

Lemma get_signal_step (b : TradingBot W) :
  same_config b (snd (strategy_get_signal b))
  /\ emits (is_fetch (symbol b)) (env b) (env (snd (strategy_get_signal b))).
Proof.
  unfold strategy_get_signal. destruct (strategy b) as [s|s] eqn:Hs.
  - pose proof (emits_breakout_signal (symbol b) s (env b)) as Hq.
    assert (Hp : VolatilityBreakoutStrategy.params
                   (snd (fst (VolatilityBreakoutStrategy.get_signal
                                (symbol b) s (env b))))
                 = VolatilityBreakoutStrategy.params s).
    { unfold VolatilityBreakoutStrategy.get_signal.
      repeat split_match; reflexivity. }
    destruct (VolatilityBreakoutStrategy.get_signal _ _ _) as [[sig s1] e1].
    cbn in *. split; [|exact Hq].
    unfold same_config. cbn. rewrite Hs. cbn. tauto.
  - pose proof (emits_rsi_signal (symbol b) s (env b)) as Hq.
    destruct (RSIStrategy.get_signal _ _ _) as [sig e1]. cbn in *.
    split; [|exact Hq]. unfold same_config. cbn. rewrite Hs. tauto.
Qed.

Lemma prepare_data_step (b : TradingBot W) :
  same_config b (strategy_prepare_data b)
  /\ emits (is_fetch (symbol b)) (env b) (env (strategy_prepare_data b)).
Proof.
  unfold strategy_prepare_data. destruct (strategy b) as [s|s] eqn:Hs.
  - pose proof (emits_prepare_data (symbol b) s (env b)) as Hq.
    assert (Hp : VolatilityBreakoutStrategy.params
                   (fst (VolatilityBreakoutStrategy.prepare_data
                           (symbol b) s (env b)))
                 = VolatilityBreakoutStrategy.params s).
    { unfold VolatilityBreakoutStrategy.prepare_data.
      repeat split_match; reflexivity. }
    destruct (VolatilityBreakoutStrategy.prepare_data _ _ _) as [s1 e1].
    cbn in *. split; [|exact Hq].
    unfold same_config. cbn. rewrite Hs. cbn. tauto.
  - split; [|apply emits_refl]. unfold same_config. rewrite Hs. tauto.
Qed.

Lemma reset_step (b : TradingBot W) :
  same_config b (strategy_reset b) /\ env (strategy_reset b) = env b.
Proof.
  unfold strategy_reset, same_config.
  destruct (strategy b) as [s|s] eqn:Hs; cbn; rewrite ?Hs; tauto.
Qed.

Lemma sell_position_step reason (b : TradingBot W) :
  same_config b (sell_position reason b)
  /\ emits (is_trading (symbol b)) (env b) (env (sell_position reason b)).
Proof.
  split; [|apply emits_sell_position].
  destruct (sell_position_outcome reason b) as (Hs & Hb & Hst & _).
  apply same_config_strategy; assumption.
Qed.

Lemma buy_position_step (b : TradingBot W) :
  same_config b (buy_position b)
  /\ emits (is_trading (symbol b)) (env b) (env (buy_position b)).
Proof.
  split; [|apply emits_buy_position].
  destruct (buy_position_config b) as (Hs & Hb & Hst).
  apply same_config_strategy; assumption.
Qed.

Lemma sleep_duration_is_rsi s :
  sleep_duration s = if is_rsi s then 5 else 2.
Proof. destruct s; reflexivity. Qed.

(** One pass: trading events about the bot's symbol, then one sleep. *)
Lemma run_tick_step (b : TradingBot W) :
  same_config b (run_tick b)
  /\ exists new,
      trace (env (run_tick b))
      = (Sleep (pass_sleep b) :: new ++ trace (env b))%list
      /\ forallb (is_trading (symbol b)) new = true.
Proof.
  unfold run_tick, pass_sleep.
  destruct (in_reset_window _).
  - unfold reset_pass.
    destruct (sell_position_step REASON_SCHEDULED b) as [C1 E1].
    destruct (reset_step (sell_position REASON_SCHEDULED b)) as [C2 E2].
    destruct (prepare_data_step
                (strategy_reset (sell_position REASON_SCHEDULED b)))
      as [C3 E3].
    split.
    + unfold bot_sleep. eapply same_config_trans; [exact C1|].
      eapply same_config_trans; [exact C2|]. exact C3.
    + destruct C2 as (S2 & _). destruct C1 as (S1 & _).
      rewrite S2, S1, E2 in E3.
      apply (emits_weaken _ _ _ _ (is_fetch_trading (symbol b))) in E3.
      destruct (emits_trans _ _ _ _ E1 E3) as (new & Htr & Hall).
      exists new. unfold bot_sleep, py_sleep. cbn. rewrite Htr.
      split; [reflexivity|exact Hall].
  - unfold trading_pass.
    destruct (get_signal_step b) as [C1 E1].
    destruct (strategy_get_signal b) as [sig b1]. cbn [snd] in *.
    apply (emits_weaken _ _ _ _ (is_fetch_trading (symbol b))) in E1.
    set (b2 := match sig with
               | BUY => if dict_is_empty (position b1)
                        then buy_position b1 else b1
               | SELL => if negb (dict_is_empty (position b1))
                         then sell_position REASON_STRATEGY b1 else b1
               | HOLD => b1
               end).
    assert (Hb2 : same_config b1 b2
                  /\ emits (is_trading (symbol b1)) (env b1) (env b2)).
    { subst b2. destruct sig;
        [destruct (dict_is_empty _)|destruct (negb _)|];
        auto using buy_position_step, sell_position_step,
          same_config_refl, emits_refl. }
    destruct Hb2 as [C2 E2].
    pose proof (same_config_trans _ _ _ C1 C2) as C12.
    split; [exact C12|].
    destruct C1 as (S1 & _). rewrite S1 in E2.
    destruct (emits_trans _ _ _ _ E1 E2) as (new & Htr & Hall).
    exists new. unfold bot_sleep, py_sleep. cbn. rewrite Htr.
    rewrite sleep_duration_is_rsi.
    destruct C12 as (_ & _ & _ & ->). split; [reflexivity|exact Hall].
Qed.

End PassShape.

(** ** The loop as a whole *)

Section LoopFacts.
Context {W : Type} `{World W}.

Lemma run_loop_config n (b : TradingBot W) : same_config b (run_loop n b).
Proof.
  revert b. induction n as [|n IH]; intros b; [apply same_config_refl|].
  cbn [run_loop]. eapply same_config_trans; [|apply IH].
  apply run_tick_step.
Qed.

(** X1 (the configuration is immutable).  However many passes [run]
    makes and whatever the exchange answers, the bot keeps its symbol and
    its budget, and its strategy keeps its class and its parameter bag. *)
Theorem configuration_is_immutable n (b : TradingBot W) :
  symbol (run n b) = symbol b
  /\ budget (run n b) = budget b
  /\ strategy_params (strategy (run n b)) = strategy_params (strategy b)
  /\ is_rsi (strategy (run n b)) = is_rsi (strategy b).
Proof.
  unfold run.
  exact (same_config_trans _ _ _ (proj1 (prepare_data_step b))
           (run_loop_config n (strategy_prepare_data b))).
Qed.

Lemma is_trading_loop sym ev :
  is_trading sym ev = true -> is_loop_event sym ev = true.
Proof. unfold is_loop_event. intros ->. reflexivity. Qed.

Lemma emits_run_tick (b : TradingBot W) :
  emits (is_loop_event (symbol b)) (env b) (env (run_tick b)).
Proof.
  destruct (run_tick_step b) as (_ & new & Htr & Hall).
  exists (Sleep (pass_sleep b) :: new). split; [exact Htr|].
  cbn. rewrite forallb_forall in *. intros ev Hin.
  apply is_trading_loop, Hall, Hin.
Qed.

Lemma emits_run_loop n (b : TradingBot W) :
  emits (is_loop_event (symbol b)) (env b) (env (run_loop n b)).
Proof.
  revert b. induction n as [|n IH]; intros b; [apply emits_refl|].
  cbn [run_loop]. eapply emits_trans; [apply emits_run_tick|].
  specialize (IH (run_tick b)).
  destruct (run_tick_step b) as ((Hs & _) & _). rewrite Hs in IH. exact IH.
Qed.

Lemma emits_run n (b : TradingBot W) :
  emits (is_loop_event (symbol b)) (env b) (env (run n b)).
Proof.
  unfold run.
  pose proof (prepare_data_step b) as [(Hs & _) E1].
  apply (emits_weaken _ _ _ _ (is_fetch_trading (symbol b))) in E1.
  apply (emits_weaken _ _ _ _ (is_trading_loop (symbol b))) in E1.
  pose proof (emits_run_loop n (strategy_prepare_data b)) as E2.
  rewrite Hs in E2. exact (emits_trans _ _ _ _ E1 E2).
Qed.

(** X2 (one instrument only).  Everything [run] adds to the trace in any
    number of passes is a ticker or candle request or a buy or sell order
    for the bot's own symbol, a recorded row, a notification or a sleep:
    the loop never addresses another symbol, and never calls
    [load_markets] or [close]. *)
Theorem run_trades_one_symbol n (b : TradingBot W) :
  exists new,
    trace (env (run n b)) = (new ++ trace (env b))%list
    /\ forallb (is_loop_event (symbol b)) new = true.
Proof. exact (emits_run n b). Qed.

Lemma sleeps_app tr1 tr2 : sleeps (tr1 ++ tr2) = (sleeps tr1 ++ sleeps tr2)%list.
Proof. apply omap_app. Qed.

Lemma sleeps_trading sym new :
  forallb (is_trading sym) new = true -> sleeps new = [].
Proof.
  induction new as [|ev new IH]; [reflexivity|].
  cbn [forallb]. intros Hall. apply andb_prop in Hall as [Hev Hall].
  destruct ev as [c ok|d|m|secs]; cbn in *; try discriminate;
    apply IH, Hall.
Qed.

Lemma sleeps_run_tick (b : TradingBot W) :
  sleeps (trace (env (run_tick b)))
  = pass_sleep b :: sleeps (trace (env b)).
Proof.
  destruct (run_tick_step b) as (_ & new & Htr & Hall).
  rewrite Htr. change (Sleep (pass_sleep b) :: new ++ trace (env b))%list
    with ([Sleep (pass_sleep b)] ++ (new ++ trace (env b)))%list.
  rewrite !sleeps_app, (sleeps_trading _ _ Hall). reflexivity.
Qed.

Lemma sleeps_run_loop n (b : TradingBot W) :
  length (sleeps (trace (env (run_loop n b))))
  = (n + length (sleeps (trace (env b))))%nat.
Proof.
  revert b. induction n as [|n IH]; intros b; [reflexivity|].
  cbn [run_loop]. rewrite IH, sleeps_run_tick. cbn [length]. lia.
Qed.

(** X3 (polling cadence).  Every pass of the loop sleeps exactly once,
    as its last action: 60 seconds when the pass started inside the reset
    window, otherwise 5 seconds for the RSI strategy and 2 seconds for
    the breakout strategy.  After [n] passes the loop has slept [n]
    times. *)
Theorem polling_cadence (b : TradingBot W) :
  (exists older,
      trace (env (run_tick b)) = Sleep (pass_sleep b) :: older
      /\ sleeps older = sleeps (trace (env b)))
  /\ forall n,
      length (sleeps (trace (env (run_loop n b))))
      = (n + length (sleeps (trace (env b))))%nat.
Proof.
  split.
  - destruct (run_tick_step b) as (_ & new & Htr & Hall).
    eexists. split; [exact Htr|].
    rewrite sleeps_app, (sleeps_trading _ _ Hall). reflexivity.
  - intros n. apply sleeps_run_loop.
Qed.

Lemma closes_app tr1 tr2 : closes (tr1 ++ tr2) = (closes tr1 + closes tr2)%nat.
Proof.
  induction tr1 as [|ev tr1 IH]; [reflexivity|].
  destruct ev as [[] ok|d|m|secs]; cbn; rewrite ?IH; reflexivity.
Qed.

Lemma closes_loop_events sym new :
  forallb (is_loop_event sym) new = true -> closes new = 0%nat.
Proof.
  induction new as [|ev new IH]; [reflexivity|].
  cbn [forallb]. intros Hall. apply andb_prop in Hall as [Hev Hall].
  destruct ev as [[] ok|d|m|secs]; cbn in *; try discriminate;
    apply IH, Hall.
Qed.

(** X4 ([main] closes the exchange once).  On every path through
    [main] after the bot is built, whether [load_markets] fails or the
    loop runs for any number of passes, and whether or not [close]
    itself succeeds, [exchange.close()] is called exactly once. *)
Theorem main_closes_exactly_once n (b : TradingBot W) :
  closes (trace (env (snd (main_from n b))))
  = S (closes (trace (env b))).
Proof.
  unfold main_from, initialize, close, lift_env, do_env, notify,
    gw_load_markets, gw_close, gateway, mbind, M_bind, mret, M_ret.
  cbn. destruct (load_markets (world (env b))) as [[[]|ex] w1]; cbn.
  - match goal with
    | |- context [run n ?b0] =>
        destruct (emits_run n b0) as (new & Htr & Hall);
        destruct (close_exchange (world (env (run n b0)))) as [[[]|ex] w2]
    end; cbn; rewrite Htr, closes_app, (closes_loop_events _ _ Hall);
      reflexivity.
  - destruct (close_exchange w1) as [[[]|ex2] w2]; reflexivity.
Qed.


End LoopFacts.

(** ** More on the strategies *)

Section StrategyFacts.
Context {W : Type} `{World W}.
Import VolatilityBreakoutStrategy.

Lemma prepare_data_last_two sym (s : t) (e : Env W) rest y td w1 :
  fetch_ohlcv sym "1d" 2 (world e) = (Ok (rest ++ [y; td])%list, w1) ->
  prepare_data sym s e
  = (set_target s
       (Some (c_open td
              + (c_high y - c_low y) * params_get (params s) "k_value" (1 # 2))%Q),
     mk_env w1 (Gateway (FetchOHLCV sym "1d" 2) true :: trace e)).
Proof.
  intros Hf. unfold prepare_data, gw_fetch_ohlcv, gateway. rewrite Hf.
  cbv beta iota. rewrite length_app. cbn [length].
  assert (Hlen : (length rest + 2 <? 2)%nat = false)
    by (apply Nat.ltb_ge; lia).
  rewrite Hlen.
  replace (length rest + 2 - 2)%nat with (length rest + 0)%nat by lia.
  replace (length rest + 2 - 1)%nat with (length rest + 1)%nat by lia.
  rewrite !lookup_app_r by lia.
  replace (length rest + 0 - length rest)%nat with 0%nat by lia.
  replace (length rest + 1 - length rest)%nat with 1%nat by lia.
  reflexivity.
Qed.


(** X6 (a failed refresh disarms).  When the candle request raises,
    [prepare_data] discards whatever target the strategy held: the target
    is undefined afterwards and every later [get_signal] answers HOLD
    without asking the exchange, until a [prepare_data] succeeds. *)
Theorem breakout_refresh_failure sym (s : t) (e : Env W) ex w1 :
  fetch_ohlcv sym "1d" 2 (world e) = (Raise ex, w1) ->
  target_price (fst (prepare_data sym s e)) = None
  /\ bought (fst (prepare_data sym s e)) = bought s
  /\ forall n,
      poll n sym (fst (prepare_data sym s e)) (snd (prepare_data sym s e))
      = (repeat HOLD n, fst (prepare_data sym s e),
         snd (prepare_data sym s e)).
Proof.
  intros Hf.
  assert (Hp : prepare_data sym s e
               = (set_target s None,
                  mk_env w1 (Gateway (FetchOHLCV sym "1d" 2) false :: trace e))).
  { unfold prepare_data, gw_fetch_ohlcv, gateway. rewrite Hf. reflexivity. }
  rewrite Hp. cbn [fst snd]. split; [reflexivity|]. split; [reflexivity|].
  intros n. apply poll_idle. right. reflexivity.
Qed.


Lemma breakout_signal_not_sell_aux sym (s : t) (e : Env W) :
  fst (fst (get_signal sym s e)) <> SELL
  /\ (fst (fst (get_signal sym s e)) = BUY
      -> bought (snd (fst (get_signal sym s e))) = true).
Proof.
  unfold get_signal. repeat split_match; cbn; split; congruence.
Qed.

(** X8 (what the breakout signal can be).  [get_signal] never answers
    SELL.  It answers BUY exactly when the flag is clear, a target is
    defined, the ticker request returns, and its ['last'] is a number
    strictly above the target.  An answer of HOLD leaves the strategy as
    it was, so a failed or unusable quote does not use up the day's
    signal; an answer of BUY changes nothing but the flag. *)
Theorem breakout_signal_characterised sym (s : t) (e : Env W) :
  fst (fst (get_signal sym s e)) <> SELL
  /\ (fst (fst (get_signal sym s e)) = BUY
      <-> bought s = false
          /\ exists target tk w1 p,
              target_price s = Some target
              /\ fetch_ticker sym (world e) = (Ok tk, w1)
              /\ tk !! "last" = Some (PNum p)
              /\ (target < p)%Q)
  /\ (fst (fst (get_signal sym s e)) = HOLD
      -> snd (fst (get_signal sym s e)) = s)
  /\ (fst (fst (get_signal sym s e)) = BUY
      -> snd (fst (get_signal sym s e))
         = mk (params s) (target_price s) true).
Proof.
  unfold get_signal, gw_fetch_ticker, gateway, dict_index.
  destruct (bought s) eqn:Hb.
  { cbn. split; [discriminate|]. split; [|split; [reflexivity|discriminate]].
    split; [discriminate|]. intros (Hf & _). discriminate. }
  destruct (target_price s) as [target|] eqn:Ht.
  2:{ cbn. split; [discriminate|].
      split; [|split; [reflexivity|discriminate]].
      split; [discriminate|].
      intros (_ & target & tk & w1 & p & Hsome & _). discriminate. }
  destruct (fetch_ticker sym (world e)) as [[tk|ex] w1] eqn:Hf.
  2:{ cbn. split; [discriminate|].
      split; [|split; [reflexivity|discriminate]].
      split; [discriminate|].
      intros (_ & target' & tk & w1' & p & _ & Hq & _). discriminate. }
  destruct (tk !! "last") as [v|] eqn:Hl.
  2:{ cbn. split; [discriminate|].
      split; [|split; [reflexivity|discriminate]].
      split; [discriminate|].
      intros (_ & target' & tk' & w1' & p & _ & Hq & Hl' & _).
      injection Hq as <- <-. rewrite Hl in Hl'. discriminate. }
  destruct v as [|p|stamp]; cbn.
  - split; [discriminate|]. split; [|split; [reflexivity|discriminate]].
    split; [discriminate|].
    intros (_ & target' & tk' & w1' & p & _ & Hq & Hl' & _).
    injection Hq as <- <-. rewrite Hl in Hl'. discriminate.
  - destruct (Qlt_bool target p) eqn:Hlt; cbn.
    + split; [discriminate|]. split; [|split; [discriminate|reflexivity]].
      split; [|reflexivity]. intros _. split; [reflexivity|].
      exists target, tk, w1, p.
      split; [reflexivity|]. split; [reflexivity|]. split; [exact Hl|].
      apply Qlt_bool_iff, Hlt.
    + split; [discriminate|]. split; [|split; [reflexivity|discriminate]].
      split; [discriminate|].
      intros (_ & target' & tk' & w1' & p' & Ht' & Hq & Hl' & Hlt').
      injection Ht' as <-. injection Hq as <- <-.
      rewrite Hl in Hl'. injection Hl' as <-.
      apply Qlt_bool_iff in Hlt'. congruence.
  - split; [discriminate|]. split; [|split; [reflexivity|discriminate]].
    split; [discriminate|].
    intros (_ & target' & tk' & w1' & p & _ & Hq & Hl' & _).
    injection Hq as <- <-. rewrite Hl in Hl'. discriminate.
Qed.

End StrategyFacts.


Lemma breakout_refresh_failure_witness :
  VolatilityBreakoutStrategy.target_price
    (fst (VolatilityBreakoutStrategy.prepare_data TARGET_SYMBOL armed
            candles_down))
  = None.
Proof.
  exact (proj1 (@breakout_refresh_failure Script ScriptWorld TARGET_SYMBOL
                  armed candles_down (ExchangeError "request timed out")
                  (snd (script_ohlcv (world candles_down))) eq_refl)).
Defined.


Lemma breakout_signal_characterised_witness :
  fst (fst (VolatilityBreakoutStrategy.get_signal TARGET_SYMBOL armed
              three_candles)) = BUY.
Proof.
  apply (proj2 (proj1 (proj2 (@breakout_signal_characterised Script
                                ScriptWorld TARGET_SYMBOL armed
                                three_candles)))).
  split; [reflexivity|].
  exists 100%Q, (ticker_at 101), (snd (script_ticker (world three_candles))),
    101%Q.
  repeat split; reflexivity.
Defined.

Section RSIFacts.
Context {W : Type} `{World W}.
Import RSIStrategy.

(** X9 (the RSI strategy and the exchange).  Every evaluation makes
    exactly one gateway call, a request for 100 candles of the ['1h']
    timeframe on the given symbol, and passes the fetched rows with the
    period [rsi_period] (14 when the key is missing) to the indicator.
    When that request raises the answer is HOLD.  Seen from the bot, an
    evaluation leaves the strategy object and the Position as they
    were. *)
Theorem rsi_signal_gateway sym (s : t) (e : Env W) :
  trace (snd (get_signal sym s e))
  = Gateway (FetchOHLCV sym "1h" 100)
            (is_ok (fst (fetch_ohlcv sym "1h" 100 (world e)))) :: trace e
  /\ world (snd (get_signal sym s e))
     = snd (fetch_ohlcv sym "1h" 100 (world e))
  /\ (forall ex w1,
         fetch_ohlcv sym "1h" 100 (world e) = (Raise ex, w1) ->
         fst (get_signal sym s e) = HOLD)
  /\ (forall ohlcv w1,
         fetch_ohlcv sym "1h" 100 (world e) = (Ok ohlcv, w1) ->
         fst (get_signal sym s e)
         = match ta_rsi (params_get (params s) "rsi_period" 14) ohlcv with
           | Some rsi => match last rsi with
                         | Some v => classify s v
                         | None => HOLD
                         end
           | None => HOLD
           end)
  /\ (forall b : TradingBot W,
         strategy b = RSI s ->
         strategy (snd (strategy_get_signal b)) = RSI s
         /\ position (snd (strategy_get_signal b)) = position b).
Proof.
  unfold get_signal, gw_fetch_ohlcv, gateway, timeframe.
  destruct (fetch_ohlcv sym "1h" 100 (world e)) as [[ohlcv|ex] w1] eqn:Hf.
  - cbn [fst snd is_ok].
    destruct (ta_rsi _ ohlcv) as [rsi|] eqn:Hrsi;
      [destruct (last rsi) as [v|] eqn:Hlast|];
      (split; [reflexivity|]; split; [reflexivity|];
       split; [discriminate|]; split;
       [intros ohlcv' w1' [= <- <-]; rewrite Hrsi, ?Hlast; reflexivity|]);
      intros b Hb; (split; [|apply get_signal_position]);
      unfold strategy_get_signal; rewrite Hb;
      destruct (RSIStrategy.get_signal _ _ _); cbn; exact Hb.
  - cbn [fst snd is_ok]. split; [reflexivity|]. split; [reflexivity|].
    split; [reflexivity|]. split; [discriminate|].
    intros b Hb. split; [|apply get_signal_position].
    unfold strategy_get_signal. rewrite Hb.
    destruct (RSIStrategy.get_signal _ _ _). cbn. exact Hb.
Qed.

End RSIFacts.

(** The hourly request is refused. *)
Lemma rsi_signal_gateway_witness :
  fst (RSIStrategy.get_signal TARGET_SYMBOL rsi_defaults candles_down) = HOLD.
Proof.
  destruct (@rsi_signal_gateway Script ScriptWorld TARGET_SYMBOL rsi_defaults
              candles_down) as (_ & _ & Hfail & _).
  exact (Hfail (ExchangeError "request timed out")
           (snd (script_ohlcv (world candles_down))) eq_refl).
Defined.

(** ** Buying *)

Section Buying.
Context {W : Type} `{World W}.

(** [buy_position] from a flat bot, up to the quote. *)
Lemma buy_position_quote (b : TradingBot W) :
  position b = ∅ ->
  buy_position b =
  match fetch_ticker (symbol b) (world (env b)) with
  | (Raise ex, w1) =>
      buy_failed ex w1 [Gateway (FetchTicker (symbol b)) false] b
  | (Ok tk, w1) =>
      match tk !! "last" with
      | None =>
          buy_failed (KeyError "last") w1
                     [Gateway (FetchTicker (symbol b)) true] b
      | Some (PNum p) =>
          if Qeq_bool p 0
          then buy_failed ZeroDivisionError w1
                          [Gateway (FetchTicker (symbol b)) true] b
          else
            let qty := PNum (budget b * (9995 # 10000) / p) in
            match create_market_buy_order (symbol b) qty w1 with
            | (Raise ex, w2) =>
                buy_failed ex w2
                  [Gateway (CreateMarketBuyOrder (symbol b) qty) false;
                   Gateway (FetchTicker (symbol b)) true] b
            | (Ok order, w2) =>
                let entry := entry_price_of order (PNum p) in
                let held := dict_get order "filled" qty in
                mk_bot (symbol b) (budget b)
                  (position_of entry held (now w2)) (strategy b)
                  (mk_env w2
                     (Notify
                        (match py_format_f entry ≫= (fun _ => py_format_f held)
                         with
                         | Ok _ => MsgBought (symbol b) entry held
                         | Raise ex => MsgBuyFailed ex
                         end)
                        :: Gateway (CreateMarketBuyOrder (symbol b) qty) true
                        :: Gateway (FetchTicker (symbol b)) true
                        :: trace (env b)))
            end
      | Some _ =>
          buy_failed TypeError w1 [Gateway (FetchTicker (symbol b)) true] b
      end
  end.
Proof.
  intros Hflat. rewrite buy_position_unfold.
  apply dict_is_empty_true in Hflat. rewrite Hflat. cbn [negb].
  unfold gw_fetch_ticker, gw_create_market_buy_order, gateway, buy_failed,
    send_message, emit.
  destruct (fetch_ticker _ _) as [[tk|ex] w1]; [|reflexivity].
  unfold dict_index at 1.
  destruct (tk !! "last") as [[|p|stamp]|]; try reflexivity.
  cbn. unfold py_div. destruct (Qeq_bool p 0); [reflexivity|].
  cbn. destruct (create_market_buy_order _ _ _) as [[order|ex] w2];
    [|reflexivity].
  cbn. fold (entry_price_of order (PNum p)).
  unfold dict_index.
  rewrite lookup_insert_ne by discriminate. rewrite lookup_insert_eq.
  destruct (py_format_f (entry_price_of order (PNum p))) as [[]|ex];
    [|reflexivity].
  cbn. destruct (py_format_f _) as [[]|ex]; reflexivity.
Qed.

(** X10 (no order without a price).  From a flat bot, when the ticker
    request raises, or the ticker has no ['last'], or its ['last'] is
    [None] or zero, [buy_position] sends no order: the only gateway call
    is the ticker request, the failure is notified with the exception
    met (the exchange's, [KeyError], [TypeError], [ZeroDivisionError]),
    and the bot is left flat. *)
Theorem buy_needs_a_price (b : TradingBot W) :
  position b = ∅ ->
  (forall ex w1,
      fetch_ticker (symbol b) (world (env b)) = (Raise ex, w1) ->
      buy_position b
      = buy_failed ex w1 [Gateway (FetchTicker (symbol b)) false] b)
  /\ (forall tk w1,
         fetch_ticker (symbol b) (world (env b)) = (Ok tk, w1) ->
         (tk !! "last" = None ->
          buy_position b
          = buy_failed (KeyError "last") w1
                       [Gateway (FetchTicker (symbol b)) true] b)
         /\ (tk !! "last" = Some PNone ->
             buy_position b
             = buy_failed TypeError w1
                          [Gateway (FetchTicker (symbol b)) true] b)
         /\ (forall p, tk !! "last" = Some (PNum p) -> (p == 0)%Q ->
             buy_position b
             = buy_failed ZeroDivisionError w1
                          [Gateway (FetchTicker (symbol b)) true] b))
  /\ (forall ex w calls, position (buy_failed ex w calls b) = ∅).
Proof.
  intros Hflat. split; [|split].
  - intros ex w1 Hf. rewrite (buy_position_quote b Hflat), Hf. reflexivity.
  - intros tk w1 Hf. rewrite (buy_position_quote b Hflat), Hf.
    split; [|split].
    + intros ->. reflexivity.
    + intros ->. reflexivity.
    + intros p -> Hz. apply Qeq_bool_iff in Hz. rewrite Hz. reflexivity.
  - intros ex w calls. exact Hflat.
Qed.


(** X12 (what a fill leaves behind).  When the exchange accepts the
    order, [buy_position] writes a Position of exactly three entries: the
    entry price is the fill's [average] if that is not falsy, else its
    [price] if that is not falsy, else the price quoted before the order;
    the quantity is whatever the fill has under ['filled'], and the
    ordered quantity when the fill has no such key; the timestamp is the
    time after the order.  The entry price is never falsy.  When entry
    price and quantity are numbers the purchase is notified. *)
Theorem buy_fill_recorded (b : TradingBot W) tk w1 p order w2 :
  position b = ∅ ->
  fetch_ticker (symbol b) (world (env b)) = (Ok tk, w1) ->
  tk !! "last" = Some (PNum p) -> ~ (p == 0)%Q ->
  create_market_buy_order (symbol b)
    (PNum (budget b * (9995 # 10000) / p)) w1 = (Ok order, w2) ->
  let q := PNum (budget b * (9995 # 10000) / p) in
  let entry := entry_price_of order (PNum p) in
  position (buy_position b)
  = position_of entry (dict_get order "filled" q) (now w2)
  /\ truthy entry = true
  /\ (forall a, order !! "average" = Some a -> truthy a = true -> entry = a)
  /\ (forall c, truthy (dict_get order "average" PNone) = false ->
                order !! "price" = Some c -> truthy c = true -> entry = c)
  /\ (truthy (dict_get order "average" PNone) = false ->
      truthy (dict_get order "price" PNone) = false -> entry = PNum p)
  /\ (order !! "filled" = None -> dict_get order "filled" q = q)
  /\ (forall a f,
         entry = PNum a -> dict_get order "filled" q = PNum f ->
         trace (env (buy_position b))
         = ([Notify (MsgBought (symbol b) (PNum a) (PNum f));
             Gateway (CreateMarketBuyOrder (symbol b) q) true;
             Gateway (FetchTicker (symbol b)) true] ++ trace (env b))%list).
Proof.
  intros Hflat Hf Hl Hp Ho q entry.
  assert (Hz : Qeq_bool p 0 = false).
  { destruct (Qeq_bool p 0) eqn:Hz; [|reflexivity].
    apply Qeq_bool_iff in Hz. contradiction. }
  rewrite (buy_position_quote b Hflat), Hf, Hl, Hz. cbv zeta.
  rewrite Ho. fold q. fold entry. cbn [position env trace].
  split; [reflexivity|]. split; [|split; [|split; [|split; [|split]]]].
  - unfold entry, entry_price_of. cbv zeta.
    destruct (truthy (py_or _ _)) eqn:Hq; [exact Hq|].
    apply truthy_num, Hp.
  - intros a Ha Hta. unfold entry, entry_price_of, py_or. cbv zeta.
    rewrite (dict_get_some _ _ _ _ Ha), Hta, Hta. reflexivity.
  - intros c Havg Hc Htc. unfold entry, entry_price_of, py_or. cbv zeta.
    rewrite Havg, (dict_get_some _ _ _ _ Hc), Htc. reflexivity.
  - intros Havg Hprice. unfold entry, entry_price_of, py_or. cbv zeta.
    rewrite Havg, Hprice. reflexivity.
  - intros Hnone. apply dict_get_none, Hnone.
  - intros a f -> ->. reflexivity.
Qed.

(** X13 (a failure notice over an open Position).  When the accepted
    fill reports ['filled'] as [None], [buy_position] has already written
    the Position when formatting the quantity raises: the bot holds a
    Position whose quantity is [None], and what it notifies is a failed
    buy with [TypeError]. *)
Theorem buy_failure_notice_with_position (b : TradingBot W) tk w1 p order w2 a :
  position b = ∅ ->
  fetch_ticker (symbol b) (world (env b)) = (Ok tk, w1) ->
  tk !! "last" = Some (PNum p) -> ~ (p == 0)%Q ->
  create_market_buy_order (symbol b)
    (PNum (budget b * (9995 # 10000) / p)) w1 = (Ok order, w2) ->
  order !! "average" = Some (PNum a) -> ~ (a == 0)%Q ->
  order !! "filled" = Some PNone ->
  position (buy_position b) = position_of (PNum a) PNone (now w2)
  /\ position (buy_position b) ≠ ∅
  /\ exists older,
      trace (env (buy_position b)) = Notify (MsgBuyFailed TypeError) :: older.
Proof.
  intros Hflat Hf Hl Hp Ho Ha Ha0 Hfilled.
  assert (Hz : Qeq_bool p 0 = false).
  { destruct (Qeq_bool p 0) eqn:Hz; [|reflexivity].
    apply Qeq_bool_iff in Hz. contradiction. }
  rewrite (buy_position_quote b Hflat), Hf, Hl, Hz. cbv zeta.
  rewrite Ho. unfold entry_price_of, py_or. cbv zeta.
  apply truthy_num in Ha0.
  rewrite (dict_get_some _ _ _ _ Ha), Ha0, Ha0,
    (dict_get_some _ _ _ _ Hfilled).
  cbn [position env trace]. split; [reflexivity|].
  split; [apply position_of_not_empty|]. eexists. reflexivity.
Qed.

End Buying.

(** ** Selling *)

Section SellingFacts.
Context {W : Type} `{World W}.

(** Splits an explicit trace into its one to three newest events and the
    rest. *)
Ltac split_newer :=
  match goal with
  | |- exists newer, ?a :: ?r = _ =>
      first
        [ exists [a]; reflexivity
        | match r with
          | ?b :: ?r2 =>
              first
                [ exists [a; b]; reflexivity
                | match r2 with
                  | ?c :: _ => exists [a; b; c]; reflexivity
                  end ]
          end ]
  end.

(** A sale that gets past the guards starts with one sell order for the
    quantity held, on the bot's symbol. *)
Lemma sell_position_orders reason (b : TradingBot W) a :
  position b ≠ ∅ ->
  dict_get (position b) "amount" PNone = a -> truthy a = true ->
  exists ok newer,
    trace (env (sell_position reason b))
    = (newer ++ Gateway (CreateMarketSellOrder (symbol b) a) ok
         :: trace (env b))%list.
Proof.
  intros Hheld Ha Ht. rewrite sell_position_unfold.
  apply dict_is_empty_false in Hheld. rewrite Hheld. cbv zeta.
  rewrite Ha, Ht. cbn [negb].
  unfold gw_create_market_sell_order, gateway.
  destruct (create_market_sell_order _ _ _) as [[order|ex] w1].
  - unfold exit_price_of, gw_fetch_ticker, gateway. cbv zeta.
    destruct (truthy (py_or _ _));
      [|destruct (fetch_ticker _ _) as [[tk|ex] w2];
        [destruct (dict_index tk "last") as [x|ex]|]];
      try destruct (trade_details _ _ _ _ _ _) as [d|ex];
      unfold sell_failed, send_message, log_trade, emit; cbn;
      eexists; split_newer.
  - unfold sell_failed, send_message, emit. cbn. eexists. split_newer.
Qed.

(** X14 (a failed sale after an accepted order is sent again).  When
    the exchange accepts the sell order but the fill carries neither an
    [average] nor a [price] and the fallback quote raises,
    [sell_position] records nothing and keeps the Position, although the
    order went through.  Because the Position is kept, the next
    [sell_position] sends a second sell order for the same quantity. *)
Theorem sell_retry_resends_order reason (b : TradingBot W) a order w1 ex w2 :
  position b ≠ ∅ ->
  dict_get (position b) "amount" PNone = a -> truthy a = true ->
  create_market_sell_order (symbol b) a (world (env b)) = (Ok order, w1) ->
  truthy (dict_get order "average" PNone) = false ->
  truthy (dict_get order "price" PNone) = false ->
  fetch_ticker (symbol b) w1 = (Raise ex, w2) ->
  sell_position reason b
  = set_env
      (mk_env w2
         (Notify (MsgSellFailed ex)
            :: Gateway (FetchTicker (symbol b)) false
            :: Gateway (CreateMarketSellOrder (symbol b) a) true
            :: trace (env b))) b
  /\ position (sell_position reason b) = position b
  /\ records (trace (env (sell_position reason b)))
     = records (trace (env b))
  /\ forall again,
      exists ok newer,
        trace (env (sell_position again (sell_position reason b)))
        = (newer ++ Gateway (CreateMarketSellOrder (symbol b) a) ok
             :: Notify (MsgSellFailed ex)
             :: Gateway (FetchTicker (symbol b)) false
             :: Gateway (CreateMarketSellOrder (symbol b) a) true
             :: trace (env b))%list.
Proof.
  intros Hheld Ha Ht Ho Havg Hprice Hq.
  assert (Hsell : sell_position reason b
                  = set_env
                      (mk_env w2
                         (Notify (MsgSellFailed ex)
                            :: Gateway (FetchTicker (symbol b)) false
                            :: Gateway (CreateMarketSellOrder (symbol b) a) true
                            :: trace (env b))) b).
  { rewrite sell_position_unfold.
    pose proof Hheld as Hne. apply dict_is_empty_false in Hne.
    rewrite Hne. cbv zeta. rewrite Ha, Ht. cbn [negb].
    unfold gw_create_market_sell_order, gateway. rewrite Ho.
    unfold exit_price_of, py_or, gw_fetch_ticker, gateway. cbv zeta.
    rewrite Havg, Hprice. cbn [world trace is_ok]. rewrite Hq. reflexivity. }
  rewrite Hsell. split; [reflexivity|]. split; [reflexivity|].
  split; [reflexivity|]. intros again.
  apply (sell_position_orders again
           (set_env
              (mk_env w2
                 (Notify (MsgSellFailed ex)
                    :: Gateway (FetchTicker (symbol b)) false
                    :: Gateway (CreateMarketSellOrder (symbol b) a) true
                    :: trace (env b))) b) a Hheld Ha Ht).
Qed.

Lemma py_round2_sign (v : Q) :
  ((0 <= v)%Q -> (0 <= py_round2 v)%Q) /\ ((v <= 0)%Q -> (py_round2 v <= 0)%Q).
Proof.
  unfold py_round2.
  destruct (round_half_even_near (v * 100)) as [Hhi Hlo].
  set (z := round_half_even (v * 100)) in *. clearbody z.
  unfold Qdiv. change (/ 100)%Q with (1 # 100)%Q. split; intros Hv.
  - assert (Hz : (0 <= z)%Z).
    { assert (Hq : (- (1 # 2) <= inject_Z z)%Q) by lra.
      unfold Qle, inject_Z in Hq. cbn in Hq. lia. }
    assert (Hq : (0 <= inject_Z z)%Q)
      by (unfold Qle, inject_Z; cbn; lia).
    lra.
  - assert (Hz : (z <= 0)%Z).
    { assert (Hq : (inject_Z z <= 1 # 2)%Q) by lra.
      unfold Qle, inject_Z in Hq. cbn in Hq. lia. }
    assert (Hq : (inject_Z z <= 0)%Q)
      by (unfold Qle, inject_Z; cbn; lia).
    lra.
Qed.

(** X15 (the sign of the recorded profit).  For a sale that goes
    through with a positive quantity, the recorded profit is never
    negative when the exit price is at least the entry price and never
    positive when it is at most the entry price: rounding to two decimals
    does not turn a gain into a loss or a loss into a gain.  Under a
    positive budget the same holds for the recorded percent. *)
Theorem recorded_profit_sign reason (b : TradingBot W)
    q e entered order w1 x e2 :
  position b !! "amount" = Some (PNum q) -> (0 < q)%Q ->
  position b !! "entry_price" = Some (PNum e) ->
  position b !! "timestamp" = Some entered ->
  ~ (budget b == 0)%Q ->
  create_market_sell_order (symbol b) (PNum q) (world (env b))
  = (Ok order, w1) ->
  exit_price_of (symbol b) order
    (mk_env w1 (Gateway (CreateMarketSellOrder (symbol b) (PNum q)) true
                  :: trace (env b)))
  = (Ok (PNum x), e2) ->
  exists d older,
    trace (env (sell_position reason b))
    = Notify (MsgSold reason (symbol b) (profit_krw d) (profit_percent d))
        :: LogTrade d :: older
    /\ ((e <= x)%Q -> (0 <= profit_krw d)%Q)
    /\ ((x <= e)%Q -> (profit_krw d <= 0)%Q)
    /\ ((0 < budget b)%Q ->
        ((e <= x)%Q -> (0 <= profit_percent d)%Q)
        /\ ((x <= e)%Q -> (profit_percent d <= 0)%Q)).
Proof.
  intros Hq Hpos He Ht Hm Ho Hx.
  assert (Hq0 : ~ (q == 0)%Q) by (intros Hz; rewrite Hz in Hpos; lra).
  rewrite (sell_position_filled reason b q e entered order w1 x e2
             Hq Hq0 He Ht Hm Ho Hx).
  eexists _, _. split; [reflexivity|].
  cbn [profit_krw profit_percent].
  split; [|split].
  - intros Hle. apply py_round2_sign. nra.
  - intros Hle. apply py_round2_sign. nra.
  - intros Hb.
    assert (Hinv : (0 < / budget b)%Q) by (apply Qinv_lt_0_compat, Hb).
    unfold Qdiv. split; intros Hle; apply py_round2_sign.
    + assert (0 <= (x - e) * q)%Q by nra.
      assert (0 <= (x - e) * q * / budget b)%Q by nra. lra.
    + assert ((x - e) * q <= 0)%Q by nra.
      assert ((x - e) * q * / budget b <= 0)%Q by nra. lra.
Qed.

End SellingFacts.

(** ** The Position over the life of the bot *)

Section PositionFacts.
Context {W : Type} `{World W}.

Lemma position_of_lookups (entry held : pyval) (t : datetime) :
  position_of entry held t !! "entry_price" = Some entry
  /\ position_of entry held t !! "amount" = Some held
  /\ position_of entry held t !! "timestamp" = Some (PStamp t)
  /\ size (position_of entry held t) = 3%nat.
Proof.
  unfold position_of. split; [|split; [|split]]; reflexivity.
Qed.

Lemma well_formed_buy (b : TradingBot W) :
  well_formed (position b) -> well_formed (position (buy_position b)).
Proof.
  intros Hwf.
  destruct (dict_is_empty (position b)) eqn:Hempty.
  2:{ apply dict_is_empty_false in Hempty.
      rewrite (buy_position_held b Hempty). exact Hwf. }
  apply dict_is_empty_true in Hempty.
  rewrite (buy_position_quote b Hempty).
  destruct (fetch_ticker _ _) as [[tk|ex] w1]; [|exact Hwf].
  destruct (tk !! "last") as [[|p|stamp]|]; try exact Hwf.
  destruct (Qeq_bool p 0) eqn:Hz; [exact Hwf|].
  cbv zeta. destruct (create_market_buy_order _ _ _) as [[order|ex] w2];
    [|exact Hwf].
  right. eexists _, _, _. split; [reflexivity|].
  unfold entry_price_of. cbv zeta.
  destruct (truthy (py_or _ _)) eqn:Hq; [exact Hq|].
  unfold truthy. rewrite Hz. reflexivity.
Qed.

Lemma well_formed_sell reason (b : TradingBot W) :
  well_formed (position b) -> well_formed (position (sell_position reason b)).
Proof.
  intros Hwf.
  destruct (sell_position_outcome reason b)
    as (_ & _ & _ & [Hsame | [(Hpos & _) | (_ & Hflat & _)]]).
  - cbv zeta in Hsame. rewrite Hsame. exact Hwf.
  - rewrite Hpos. exact Hwf.
  - left. exact Hflat.
Qed.

Lemma reset_position (b : TradingBot W) :
  position (strategy_reset b) = position b.
Proof. unfold strategy_reset. destruct (strategy b); reflexivity. Qed.

Lemma well_formed_tick (b : TradingBot W) :
  well_formed (position b) -> well_formed (position (run_tick b)).
Proof.
  intros Hwf. unfold run_tick. destruct (in_reset_window _).
  - unfold reset_pass, bot_sleep. cbn [position set_env].
    rewrite prepare_data_position, reset_position.
    apply well_formed_sell, Hwf.
  - unfold trading_pass. pose proof (get_signal_position b) as Hpos.
    destruct (strategy_get_signal b) as [sig b1]. cbn [snd] in Hpos.
    unfold bot_sleep. cbn [position set_env]. rewrite <- Hpos in Hwf.
    destruct sig; [destruct (dict_is_empty _)|destruct (negb _)|];
      auto using well_formed_buy, well_formed_sell.
Qed.

(** X16 (the Position is absent or complete).  Starting from a
    Position that is absent or was written by [buy_position], after any
    number of passes of [run] the Position is still either empty or a
    dictionary of exactly three entries, the entry price, the quantity
    and the timestamp, whose entry price is not falsy.  No pass leaves a
    partly written Position. *)
Theorem position_absent_or_complete n (b : TradingBot W) :
  well_formed (position b) ->
  position (run n b) = ∅
  \/ exists entry held t,
      position (run n b) !! "entry_price" = Some entry
      /\ position (run n b) !! "amount" = Some held
      /\ position (run n b) !! "timestamp" = Some (PStamp t)
      /\ size (position (run n b)) = 3%nat
      /\ truthy entry = true.
Proof.
  intros Hwf.
  assert (Hrun : well_formed (position (run n b))).
  { unfold run. rewrite <- (prepare_data_position b) in Hwf.
    generalize dependent (strategy_prepare_data b). clear b.
    induction n as [|n IH]; intros b Hwf; [exact Hwf|].
    cbn [run_loop]. apply IH, well_formed_tick, Hwf. }
  destruct Hrun as [Hflat | (entry & held & t & Hpos & Htruthy)];
    [left; exact Hflat|].
  right. exists entry, held, t. rewrite Hpos.
  destruct (position_of_lookups entry held t) as (H1 & H2 & H3 & H4).
  repeat split; assumption.
Qed.


End PositionFacts.

(** ** Signals and orders *)

Section Dispatch.
Context {W : Type} `{World W}.

Lemma get_signal_class (b : TradingBot W) :
  is_rsi (strategy (snd (strategy_get_signal b))) = is_rsi (strategy b).
Proof. apply get_signal_step. Qed.

(** A pass outside the window that does not act on its signal. *)
Lemma trading_pass_idle (b : TradingBot W) :
  in_reset_window (now (world (env b))) = false ->
  fst (strategy_get_signal b) = HOLD
  \/ (fst (strategy_get_signal b) = SELL /\ position b = ∅)
  \/ (fst (strategy_get_signal b) = BUY /\ position b ≠ ∅) ->
  run_tick b = bot_sleep (pass_sleep b) (snd (strategy_get_signal b)).
Proof.
  intros Hwin Hsig. unfold run_tick, trading_pass, pass_sleep. rewrite Hwin.
  pose proof (get_signal_position b) as Hpos.
  pose proof (get_signal_class b) as Hclass.
  destruct (strategy_get_signal b) as [sig b1]. cbn [fst snd] in *.
  rewrite <- Hclass, <- sleep_duration_is_rsi.
  destruct Hsig as [-> | [[-> Hflat] | [-> Hheld]]].
  - reflexivity.
  - rewrite <- Hpos in Hflat. apply dict_is_empty_true in Hflat.
    rewrite Hflat. reflexivity.
  - rewrite <- Hpos in Hheld. apply dict_is_empty_false in Hheld.
    rewrite Hheld. reflexivity.
Qed.

(** X18 (no order without a matching signal).  Outside the reset
    window, a pass whose signal is HOLD, or SELL while the bot is flat,
    or BUY while it holds a Position, sends no order, records no row and
    notifies nothing: the only gateway calls are the market-data requests
    of [get_signal], and the Position is what it was. *)
Theorem no_order_without_matching_signal (b : TradingBot W) :
  in_reset_window (now (world (env b))) = false ->
  fst (strategy_get_signal b) = HOLD
  \/ (fst (strategy_get_signal b) = SELL /\ position b = ∅)
  \/ (fst (strategy_get_signal b) = BUY /\ position b ≠ ∅) ->
  position (run_tick b) = position b
  /\ exists new,
      trace (env (run_tick b))
      = (Sleep (pass_sleep b) :: new ++ trace (env b))%list
      /\ forallb (is_fetch (symbol b)) new = true.
Proof.
  intros Hwin Hsig. rewrite (trading_pass_idle b Hwin Hsig).
  unfold bot_sleep, py_sleep. cbn [position set_env env trace].
  split; [apply get_signal_position|].
  destruct (get_signal_step b) as (_ & new & Htr & Hall).
  exists new. rewrite Htr. split; [reflexivity|exact Hall].
Qed.

Lemma breakout_signal_not_sell (b : TradingBot W) s :
  strategy b = VolatilityBreakout s -> fst (strategy_get_signal b) <> SELL.
Proof.
  intros Hs. unfold strategy_get_signal. rewrite Hs.
  pose proof (proj1 (breakout_signal_not_sell_aux (symbol b) s (env b))).
  destruct (VolatilityBreakoutStrategy.get_signal _ _ _) as [[sig s1] e1].
  assumption.
Qed.

(** X19 (the breakout strategy exits only at the reset).  With the
    breakout strategy, a pass outside the reset window never sells: when
    the bot holds a Position the pass keeps it, sends no order, records
    no row, and after the market-data request of [get_signal], if any,
    sleeps 2 seconds. *)
Theorem breakout_exits_only_at_reset (b : TradingBot W) s :
  strategy b = VolatilityBreakout s ->
  in_reset_window (now (world (env b))) = false ->
  position b ≠ ∅ ->
  position (run_tick b) = position b
  /\ records (trace (env (run_tick b))) = records (trace (env b))
  /\ exists new,
      trace (env (run_tick b)) = (Sleep 2 :: new ++ trace (env b))%list
      /\ forallb (is_fetch (symbol b)) new = true.
Proof.
  intros Hs Hwin Hheld.
  assert (Hsig : fst (strategy_get_signal b) = HOLD
                 \/ (fst (strategy_get_signal b) = SELL /\ position b = ∅)
                 \/ (fst (strategy_get_signal b) = BUY /\ position b ≠ ∅)).
  { pose proof (breakout_signal_not_sell b s Hs) as Hnot.
    destruct (fst (strategy_get_signal b)); [right; right; tauto| |left];
      [contradiction|reflexivity]. }
  rewrite (trading_pass_idle b Hwin Hsig).
  assert (Hsleep : pass_sleep b = 2%nat)
    by (unfold pass_sleep; rewrite Hwin, Hs; reflexivity).
  rewrite Hsleep. unfold bot_sleep, py_sleep. cbn [position set_env env trace].
  destruct (get_signal_step b) as (_ & new & Htr & Hall).
  split; [apply get_signal_position|]. rewrite Htr. split.
  - change (Sleep 2 :: new ++ trace (env b))%list
      with ([Sleep 2] ++ new ++ trace (env b))%list.
    unfold records. rewrite !omap_app.
    assert (Hnone : omap (fun ev => match ev with
                                    | LogTrade d => Some d
                                    | _ => None
                                    end) new = []).
    { clear Htr. induction new as [|ev new IH]; [reflexivity|].
      cbn [forallb] in Hall. apply andb_prop in Hall as [Hev Hall].
      destruct ev as [[] ok|d|m|secs]; cbn in *; try discriminate;
        apply IH, Hall. }
    rewrite Hnone. reflexivity.
  - exists new. split; [reflexivity|exact Hall].
Qed.

(** X20 (one signal a day, even if the buy fails).  With the breakout
    strategy, a pass outside the reset window whose signal is BUY leaves
    the fired flag set whatever becomes of the buy.  While the flag is
    set, a pass outside the window does nothing but sleep 2 seconds: no
    quote is requested and no order is sent.  So a buy that failed is not
    tried again before the next reset. *)
Theorem breakout_buy_not_retried (b : TradingBot W) s :
  strategy b = VolatilityBreakout s ->
  in_reset_window (now (world (env b))) = false ->
  (fst (strategy_get_signal b) = BUY ->
   exists s',
     strategy (run_tick b) = VolatilityBreakout s'
     /\ VolatilityBreakoutStrategy.bought s' = true)
  /\ (VolatilityBreakoutStrategy.bought s = true ->
      run_tick b = bot_sleep 2 b).
Proof.
  intros Hs Hwin. split.
  - intros Hsig. unfold run_tick, trading_pass. rewrite Hwin.
    unfold strategy_get_signal in *. rewrite Hs in *.
    pose proof (proj2 (breakout_signal_not_sell_aux (symbol b) s (env b)))
      as Hflag.
    destruct (VolatilityBreakoutStrategy.get_signal _ _ _) as [[sig s1] e1].
    cbn [fst snd] in *. subst sig. specialize (Hflag eq_refl).
    exists s1. split; [|exact Hflag].
    unfold bot_sleep. cbn [strategy set_env].
    destruct (dict_is_empty _); [|reflexivity].
    destruct (buy_position_config
                (set_env e1 (set_strategy (VolatilityBreakout s1) b)))
      as (_ & _ & ->). reflexivity.
  - intros Hfired. unfold run_tick, trading_pass. rewrite Hwin.
    unfold strategy_get_signal. rewrite Hs.
    rewrite (get_signal_idle (symbol b) s (env b) (or_introl Hfired)).
    cbn. destruct b as [sym money pos strat e]. cbn in *. subst strat.
    reflexivity.
Qed.

End Dispatch.

(** ** The properties above on the scripted exchange *)

Lemma buy_needs_a_price_witness :
  buy_position (flat_with (breakout None false) (Ok (ticker_at 0)) unscripted)
  = buy_failed ZeroDivisionError
      (snd (script_ticker
              (world (env (flat_with (breakout None false)
                             (Ok (ticker_at 0)) unscripted)))))
      [Gateway (FetchTicker TARGET_SYMBOL) true]
      (flat_with (breakout None false) (Ok (ticker_at 0)) unscripted).
Proof.
  destruct (@buy_needs_a_price Script ScriptWorld
              (flat_with (breakout None false) (Ok (ticker_at 0)) unscripted)
              eq_refl) as (_ & Hquote & _).
  destruct (Hquote (ticker_at 0) _ eq_refl) as (_ & _ & Hzero).
  apply (Hzero 0%Q); reflexivity.
Defined.


Lemma buy_fill_recorded_witness :
  position (buy_position (buying (PNum 2)))
  = position_of (PNum 100) (PNum 2) noon.
Proof.
  destruct (@buy_fill_recorded Script ScriptWorld (buying (PNum 2))
              (ticker_at 100) _ 100%Q (fill (PNum 100) (PNum 2)) _
              eq_refl eq_refl eq_refl ltac:(discriminate) eq_refl)
    as (Hpos & _).
  exact Hpos.
Defined.

Lemma buy_failure_notice_with_position_witness :
  position (buy_position (buying PNone)) ≠ ∅
  /\ exists older,
      trace (env (buy_position (buying PNone)))
      = Notify (MsgBuyFailed TypeError) :: older.
Proof.
  destruct (@buy_failure_notice_with_position Script ScriptWorld
              (buying PNone) (ticker_at 100) _ 100%Q (fill (PNum 100) PNone)
              _ 100%Q eq_refl eq_refl eq_refl ltac:(discriminate) eq_refl
              eq_refl ltac:(discriminate) eq_refl) as (_ & Hheld & Hnotice).
  split; assumption.
Defined.

Lemma sell_retry_resends_order_witness :
  position (sell_position REASON_STRATEGY (selling PNone (Raise timeout)))
  = position (selling PNone (Raise timeout))
  /\ exists ok newer,
      trace (env (sell_position REASON_SCHEDULED
                    (sell_position REASON_STRATEGY
                       (selling PNone (Raise timeout)))))
      = (newer ++ [Gateway (CreateMarketSellOrder TARGET_SYMBOL (PNum 2)) ok;
                   Notify (MsgSellFailed timeout);
                   Gateway (FetchTicker TARGET_SYMBOL) false;
                   Gateway (CreateMarketSellOrder TARGET_SYMBOL (PNum 2)) true])%list.
Proof.
  destruct (@sell_retry_resends_order Script ScriptWorld REASON_STRATEGY
              (selling PNone (Raise timeout)) (PNum 2)
              (fill PNone (PNum 2)) _ timeout _
              ltac:(apply position_of_not_empty) eq_refl eq_refl eq_refl
              eq_refl eq_refl eq_refl) as (_ & Hpos & _ & Hagain).
  split; [exact Hpos|]. exact (Hagain REASON_SCHEDULED).
Defined.

Lemma recorded_profit_sign_witness :
  exists d older,
    trace (env (sell_position REASON_STRATEGY (selling (PNum 110) unscripted)))
    = Notify (MsgSold REASON_STRATEGY TARGET_SYMBOL (profit_krw d)
                      (profit_percent d)) :: LogTrade d :: older
    /\ (0 <= profit_krw d)%Q.
Proof.
  destruct (@recorded_profit_sign Script ScriptWorld REASON_STRATEGY
              (selling (PNum 110) unscripted)
              2%Q 100%Q (PStamp noon) (fill (PNum 110) (PNum 2))
              (snd (script_sell (world (env (selling (PNum 110) unscripted)))))
              110%Q
              (mk_env
                 (snd (script_sell
                         (world (env (selling (PNum 110) unscripted)))))
                 [Gateway (CreateMarketSellOrder TARGET_SYMBOL (PNum 2)) true])
              eq_refl ltac:(reflexivity) eq_refl eq_refl
              ltac:(discriminate) eq_refl eq_refl)
    as (d & older & Htr & Hgain & _).
  exists d, older. split; [exact Htr|]. apply Hgain. discriminate.
Defined.

Lemma position_absent_or_complete_witness :
  position (run 3 fresh_bot) = ∅
  \/ exists entry held t,
      position (run 3 fresh_bot) !! "entry_price" = Some entry
      /\ position (run 3 fresh_bot) !! "amount" = Some held
      /\ position (run 3 fresh_bot) !! "timestamp" = Some (PStamp t)
      /\ size (position (run 3 fresh_bot)) = 3%nat
      /\ truthy entry = true.
Proof.
  apply (@position_absent_or_complete Script ScriptWorld 3 fresh_bot).
  left. reflexivity.
Defined.


Lemma no_order_without_matching_signal_witness :
  fst (strategy_get_signal (rsi_flat 75)) = SELL
  /\ position (run_tick (rsi_flat 75)) = ∅.
Proof.
  assert (Hsig : fst (strategy_get_signal (rsi_flat 75)) = SELL)
    by reflexivity.
  split; [exact Hsig|].
  apply (@no_order_without_matching_signal Script ScriptWorld (rsi_flat 75)
           eq_refl (or_intror (or_introl (conj Hsig eq_refl)))).
Defined.

Lemma breakout_exits_only_at_reset_witness :
  position (run_tick holding_armed) = position holding_armed.
Proof.
  apply (@breakout_exits_only_at_reset Script ScriptWorld holding_armed
           _ eq_refl eq_refl).
  apply position_of_not_empty.
Defined.

Lemma breakout_buy_not_retried_witness :
  position (run_tick (flat_with (breakout (Some 100%Q) false)
                        (Ok (ticker_at 101)) (Raise refused))) = ∅
  /\ exists s',
      strategy (run_tick (flat_with (breakout (Some 100%Q) false)
                            (Ok (ticker_at 101)) (Raise refused)))
      = VolatilityBreakout s'
      /\ VolatilityBreakoutStrategy.bought s' = true.
Proof.
  split; [reflexivity|].
  apply (proj1 (@breakout_buy_not_retried Script ScriptWorld
                  (flat_with (breakout (Some 100%Q) false)
                             (Ok (ticker_at 101)) (Raise refused))
                  _ eq_refl eq_refl)).
  reflexivity.
Defined.

(** ** The trade log *)

Section TradeLog.
Import PerformanceLogger.
Variable py_str : pyval -> string.
Variable num_str : Q -> string.

Lemma append_assoc (s1 s2 s3 : string) :
  (s1 ++ s2) ++ s3 = s1 ++ (s2 ++ s3).
Proof.
  induction s1 as [|a s1 IH]; [reflexivity|].
  change (String a ((s1 ++ s2) ++ s3) = String a (s1 ++ (s2 ++ s3))).
  f_equal. exact IH.
Qed.

Lemma append_empty (s : string) : s ++ EmptyString = s.
Proof.
  induction s as [|a s IH]; [reflexivity|].
  change (String a (s ++ EmptyString) = String a s). f_equal. exact IH.
Qed.

Lemma count_char_app c (s1 s2 : string) :
  count_char c (s1 ++ s2) = (count_char c s1 + count_char c s2)%nat.
Proof.
  induction s1 as [|a s1 IH]; [reflexivity|].
  change (((if Ascii.eqb a c then 1 else 0) + count_char c (s1 ++ s2))%nat
          = ((if Ascii.eqb a c then 1 else 0) + count_char c s1
             + count_char c s2)%nat).
  rewrite IH. lia.
Qed.

Lemma log_trades_lookup (lg : t) ds (fs : gmap string string) :
  log_trades py_str num_str lg ds fs !! filename lg
  = match ds with
    | [] => fs !! filename lg
    | _ => Some (default EmptyString (fs !! filename lg)
                 ++ rows py_str num_str ds)
    end
  /\ forall other, other ≠ filename lg ->
                   log_trades py_str num_str lg ds fs !! other = fs !! other.
Proof.
  revert fs. induction ds as [|d ds IH]; intros fs; [split; reflexivity|].
  change (log_trades py_str num_str lg (d :: ds) fs)
    with (log_trades py_str num_str lg ds (log_trade py_str num_str lg d fs)).
  destruct (IH (log_trade py_str num_str lg d fs)) as [Hhere Hother].
  split.
  - rewrite Hhere. unfold log_trade at 1 2. rewrite lookup_insert_eq.
    destruct ds as [|d' ds]; cbn [default from_option id rows foldr].
    + rewrite append_empty. reflexivity.
    + rewrite append_assoc. reflexivity.
  - intros other Hne. rewrite (Hother other Hne). unfold log_trade.
    apply lookup_insert_ne. congruence.
Qed.


(** X22 (columns of a row).  A row has seven commas more than its
    eight fields contain, and the header has seven.  So when no field is
    rendered with a comma in it, every row has as many columns as the
    header; the logger does no quoting, and a symbol with a comma in it
    shifts the columns. *)
Theorem trade_log_columns (d : TradeRecord) :
  count_char comma HEADER = 7%nat
  /\ count_char comma (row py_str num_str d)
     = (7 + (count_char comma (py_str (entry_time d))
             + count_char comma (py_str (exit_time d))
             + count_char comma (tr_symbol d)
             + count_char comma (py_str (entry_price d))
             + count_char comma (py_str (exit_price d))
             + count_char comma (py_str (amount d))
             + count_char comma (num_str (profit_krw d))
             + count_char comma (num_str (profit_percent d))))%nat
  /\ ((forall v, count_char comma (py_str v) = 0%nat) ->
      (forall q, count_char comma (num_str q) = 0%nat) ->
      count_char comma (tr_symbol d) = 0%nat ->
      count_char comma (row py_str num_str d) = count_char comma HEADER).
Proof.
  assert (Hrow : count_char comma (row py_str num_str d)
     = (7 + (count_char comma (py_str (entry_time d))
             + count_char comma (py_str (exit_time d))
             + count_char comma (tr_symbol d)
             + count_char comma (py_str (entry_price d))
             + count_char comma (py_str (exit_price d))
             + count_char comma (py_str (amount d))
             + count_char comma (num_str (profit_krw d))
             + count_char comma (num_str (profit_percent d))))%nat).
  { unfold row. rewrite !count_char_app.
    change (count_char comma ",") with 1%nat.
    change (count_char comma newline) with 0%nat. lia. }
  split; [reflexivity|]. split; [exact Hrow|].
  intros Hv Hq Hsym. rewrite Hrow, !Hv, !Hq, Hsym. reflexivity.
Qed.

End TradeLog.


Lemma trade_log_columns_witness :
  PerformanceLogger.count_char PerformanceLogger.comma
    (PerformanceLogger.row (fun _ => "v") (fun _ => "0")
       (mk_trade PNone PNone TARGET_SYMBOL PNone PNone PNone 0 0))
  = PerformanceLogger.count_char PerformanceLogger.comma
      PerformanceLogger.HEADER.
Proof.
  apply (trade_log_columns (fun _ => "v") (fun _ => "0")
           (mk_trade PNone PNone TARGET_SYMBOL PNone PNone PNone 0 0));
    reflexivity.
Defined.

(** ** The notifier *)

Section Notifier.
Import NotificationManager.
Context {N : Type} `{Network N}.

Lemma configured_some (v : option string) :
  configured v = true <-> exists s, v = Some s /\ s <> EmptyString.
Proof.
  destruct v as [[|a s]|]; cbn; split; try discriminate.
  - intros (s & [= <-] & Hne). contradiction.
  - intros _. eexists. split; [reflexivity|discriminate].
  - intros _. reflexivity.
  - intros (s & Hs & _). discriminate.
Qed.

(** X23 (what the notifier sends).  When the token or the chat id is
    missing or empty, [send_message] makes no request and leaves the
    network alone, for any number of messages.  Otherwise every message
    gives exactly one GET request, in the order sent, to the
    [sendMessage] address of the configured bot, with the configured chat
    id, the message as text and a timeout of 5 seconds; this is so
    whether the requests succeed, fail or raise. *)
Theorem notifier_requests (nm : t) messages (net : N * list request) :
  (configured (token nm) && configured (chat_id nm) = false ->
   send_all nm messages net = net)
  /\ (forall tok chat,
         token nm = Some tok -> chat_id nm = Some chat ->
         tok <> EmptyString -> chat <> EmptyString ->
         snd (send_all nm messages net)
         = (rev (map (request_for tok chat) messages) ++ snd net)%list).
Proof.
  split.
  - intros Hoff. revert net.
    induction messages as [|m messages IH]; intros net; [reflexivity|].
    change (send_all nm (m :: messages) net)
      with (send_all nm messages (send_message nm m net)).
    assert (Hsilent : send_message nm m net = net).
    { unfold send_message. apply andb_false_iff in Hoff.
      destruct Hoff as [-> | ->]; [reflexivity|].
      rewrite orb_true_r. reflexivity. }
    rewrite Hsilent. apply IH.
  - intros tok chat Htok Hchat Ht Hc. revert net.
    assert (Hon : configured (token nm) && configured (chat_id nm) = true).
    { apply andb_true_intro. split; apply configured_some; eauto. }
    induction messages as [|m messages IH]; intros net; [reflexivity|].
    change (send_all nm (m :: messages) net)
      with (send_all nm messages (send_message nm m net)).
    apply andb_prop in Hon as [Hon1 Hon2].
    rewrite IH. unfold send_message. rewrite Hon1, Hon2, Htok, Hchat.
    cbn [negb orb default from_option id].
    fold (request_for tok chat m).
    destruct (http_get (request_for tok chat m) (fst net)) as [r n1].
    cbn [snd map rev]. rewrite <- app_assoc. reflexivity.
Qed.

End Notifier.

Lemma notifier_requests_witness :
  NotificationManager.send_all
    (NotificationManager.mk (Some "123:abc") (Some EmptyString))
    ["started"; "stopped"] (Down, [])
  = (Down, [])
  /\ snd (NotificationManager.send_all
            (NotificationManager.mk (Some "123:abc") (Some "42"))
            ["started"; "stopped"] (Down, []))
     = [request_for "123:abc" "42" "stopped";
        request_for "123:abc" "42" "started"].
Proof.
  split.
  - apply (proj1 (@notifier_requests Wire WireNetwork
                    (NotificationManager.mk (Some "123:abc")
                                            (Some EmptyString))
                    ["started"; "stopped"] (Down, []))).
    reflexivity.
  - apply (proj2 (@notifier_requests Wire WireNetwork
                    (NotificationManager.mk (Some "123:abc") (Some "42"))
                    ["started"; "stopped"] (Down, []))
             "123:abc" "42" eq_refl eq_refl);
      discriminate.
Defined.


(** ** Building the bot *)

Section ConstructionFacts.
Context {W : Type}.
Variable ccxt : string -> option (string -> string -> W).


End ConstructionFacts.

